(** * Campaign analytics: the aggregation pipeline of [utils.py]

    A shallow embedding of the [calculate_*] functions of [utils.py]
    (basic metrics, revenue by channel, margin, pacing, cash flow) and the
    properties of them that the specification states.

    Modelling conventions.
    - A pandas DataFrame is a [list] of row records, in row order.
    - A float column is an exact rational ([Q]); [round(d)] is rounding
      half to even at [d] decimals, as numpy and Python do.  Binary
      floating-point error is outside the model.
    - [groupby] yields one group per distinct key, keys in sorted order
      (pandas' [sort=True] default).
    - The two sources of non-determinism, [np.random] and
      [datetime.now()], are made explicit in an environment [Env].
    - For the frame property the functions are run a second time as
      programs over a store of DataFrames, with [.copy()] and column
      assignment as the source has them. *)

From Stdlib Require Import ZArith QArith Qabs Qround Lia Lqa Ascii String List Bool
  Permutation DecimalString.
Import ListNotations.
Local Open Scope string_scope.
Local Open Scope Z_scope.
Local Open Scope Q_scope.
Local Open Scope list_scope.

(* ===================================================================== *)
(** ** Numbers: decimal rounding *)
(* ===================================================================== *)

(** [numpy.rint] / Python [round]: nearest integer, ties to even. *)
Definition round_half_even (x : Q) : Z :=
  let f := Qfloor x in
  match Qcompare (x - inject_Z f) (1 # 2) with
  | Lt => f
  | Gt => (f + 1)%Z
  | Eq => if Z.even f then f else (f + 1)%Z
  end.

Definition pow10 (d : nat) : Z := (10 ^ Z.of_nat d)%Z.

(** [x.round(d)]: scale by [10^d], round to the nearest integer, scale
    back.  The result is stored in lowest terms, so two equal numbers
    round to the same value. *)
Definition round_dp (d : nat) (x : Q) : Q :=
  Qred (inject_Z (round_half_even (x * inject_Z (pow10 d))) / inject_Z (pow10 d)).

Definition round2 : Q -> Q := round_dp 2.
Definition round3 : Q -> Q := round_dp 3.

Definition Qsum (l : list Q) : Q := fold_right Qplus 0 l.

Definition Qof_nat (n : nat) : Q := inject_Z (Z.of_nat n).

(** [Series.mean()]. *)
Definition Qmean (l : list Q) : Q := Qsum l / Qof_nat (length l).

Definition Qgtb (a b : Q) : bool := negb (Qle_bool a b).
Definition Qltb (a b : Q) : bool := negb (Qle_bool b a).

(* ===================================================================== *)
(** ** Calendar dates ([datetime.date], [pandas.Period('M')]) *)
(* ===================================================================== *)

Record Date := mkDate { year : Z; month : Z; day : Z }.

Definition is_leap (y : Z) : bool :=
  ((y mod 4 =? 0) && (negb (y mod 100 =? 0) || (y mod 400 =? 0)))%Z.

Definition days_in_month (y m : Z) : Z :=
  (if m =? 2 then (if is_leap y then 29 else 28)
   else if (m =? 4) || (m =? 6) || (m =? 9) || (m =? 11) then 30
   else 31)%Z.

(** Days of the year before the first of month [m]. *)
Definition days_before_month (y m : Z) : Z :=
  fold_right Z.add 0%Z
    (map (fun k => days_in_month y (Z.of_nat k)) (seq 1 (Z.to_nat (m - 1)))).

(** Days before January 1st of year [y]. *)
Definition days_before_year (y : Z) : Z :=
  (let p := y - 1 in p * 365 + p / 4 - p / 100 + p / 400)%Z.

(** [date.toordinal()]: 0001-01-01 is day 1. *)
Definition toordinal (d : Date) : Z :=
  (days_before_year (year d) + days_before_month (year d) (month d) + day d)%Z.


Definition next_day (d : Date) : Date :=
  if (day d <? days_in_month (year d) (month d))%Z
  then mkDate (year d) (month d) (day d + 1)
  else if (month d <? 12)%Z then mkDate (year d) (month d + 1) 1
  else mkDate (year d + 1) 1 1.

(** [d + timedelta(days=n)] for a non-negative day count. *)
Definition add_days (d : Date) (n : nat) : Date := Nat.iter n next_day d.

Arguments add_days : simpl never.

(** [(a - b).days]. *)
Definition days_between (a b : Date) : Z := (toordinal a - toordinal b)%Z.

(** A monthly period, [timestamp.dt.to_period('M')]. *)
Record Period := mkPeriod { p_year : Z; p_month : Z }.

Definition to_period (d : Date) : Period := mkPeriod (year d) (month d).

(** [period.end_time.date()]: the last calendar day of the month. *)
Definition month_end (p : Period) : Date :=
  mkDate (p_year p) (p_month p) (days_in_month (p_year p) (p_month p)).

(** A timestamp: calendar date and seconds since midnight. *)
Record Timestamp := mkTs { ts_date : Date; ts_secs : Z }.

(* ===================================================================== *)
(** ** Keys of a [groupby] *)
(* ===================================================================== *)

(** What a column needs to serve as a grouping key: equality and the
    order the groups are sorted by. *)
Class KeyOrder (K : Type) := {
  key_eqb : K -> K -> bool;
  key_leb : K -> K -> bool;
  key_eqb_eq : forall a b, key_eqb a b = true <-> a = b
}.

#[export] Instance KeyOrder_string : KeyOrder string :=
  {| key_eqb := String.eqb; key_leb := String.leb; key_eqb_eq := String.eqb_eq |}.

#[export] Instance KeyOrder_Z : KeyOrder Z :=
  {| key_eqb := Z.eqb; key_leb := Z.leb; key_eqb_eq := Z.eqb_eq |}.

Lemma pair_eqb_eq {A B} `{KeyOrder A} `{KeyOrder B} (p q : A * B) :
  key_eqb (fst p) (fst q) && key_eqb (snd p) (snd q) = true <-> p = q.
Proof.
  destruct p as [a b], q as [c d]; simpl.
  rewrite andb_true_iff, !key_eqb_eq.
  split; [intros [-> ->]; reflexivity | intros E; inversion E; auto].
Qed.

#[export] Instance KeyOrder_pair {A B} `{KeyOrder A} `{KeyOrder B} : KeyOrder (A * B) :=
  {| key_eqb := fun p q => key_eqb (fst p) (fst q) && key_eqb (snd p) (snd q);
     key_leb := fun p q => if key_eqb (fst p) (fst q) then key_leb (snd p) (snd q)
                           else key_leb (fst p) (fst q);
     key_eqb_eq := pair_eqb_eq |}.

Definition date_key (d : Date) : Z * (Z * Z) := (year d, (month d, day d)).
Definition date_eqb (a b : Date) : bool := key_eqb (date_key a) (date_key b).
Definition date_leb (a b : Date) : bool := key_leb (date_key a) (date_key b).

Lemma date_eqb_eq (a b : Date) : date_eqb a b = true <-> a = b.
Proof.
  unfold date_eqb. rewrite key_eqb_eq. destruct a, b; unfold date_key; simpl.
  split; intros E; inversion E; reflexivity.
Qed.

#[export] Instance KeyOrder_Date : KeyOrder Date :=
  {| key_eqb := date_eqb; key_leb := date_leb; key_eqb_eq := date_eqb_eq |}.

Definition period_key (p : Period) : Z * Z := (p_year p, p_month p).
Definition period_eqb (a b : Period) : bool := key_eqb (period_key a) (period_key b).
Definition period_leb (a b : Period) : bool := key_leb (period_key a) (period_key b).

Lemma period_eqb_eq (a b : Period) : period_eqb a b = true <-> a = b.
Proof.
  unfold period_eqb. rewrite key_eqb_eq. destruct a, b; unfold period_key; simpl.
  split; intros E; inversion E; reflexivity.
Qed.

#[export] Instance KeyOrder_Period : KeyOrder Period :=
  {| key_eqb := period_eqb; key_leb := period_leb; key_eqb_eq := period_eqb_eq |}.

Definition ts_leb (a b : Timestamp) : bool :=
  if date_eqb (ts_date a) (ts_date b) then (ts_secs a <=? ts_secs b)%Z
  else date_leb (ts_date a) (ts_date b).

Section GroupBy.
Context {K : Type} `{KeyOrder K}.

(** [Series.unique()]: first occurrences, in order of appearance. *)
Fixpoint unique (l : list K) : list K :=
  match l with
  | [] => []
  | k :: r => k :: filter (fun x => negb (key_eqb x k)) (unique r)
  end.

Fixpoint insert_sorted (k : K) (l : list K) : list K :=
  match l with
  | [] => [k]
  | x :: r => if key_leb k x then k :: l else x :: insert_sorted k r
  end.

Definition sort_keys (l : list K) : list K := fold_right insert_sorted [] l.

(** The group labels of [df.groupby(col)]: distinct keys, sorted. *)
Definition group_keys (l : list K) : list K := sort_keys (unique l).

Context {A : Type}.

(** The rows of [df] whose key column equals [k]. *)
Definition rows_with (key : A -> K) (k : K) (df : list A) : list A :=
  filter (fun r => key_eqb (key r) k) df.

(** [df.groupby(key)]: each label with its rows, in row order. *)
Definition groupby (key : A -> K) (df : list A) : list (K * list A) :=
  map (fun k => (k, rows_with key k df)) (group_keys (map key df)).

(** [table.loc[k]] on a table indexed by the group label. *)
Definition index_lookup {V : Type} (k : K) (tbl : list (K * V)) : option V :=
  option_map snd (find (fun p => key_eqb (fst p) k) tbl).
End GroupBy.

(* ===================================================================== *)
(** ** The record model (the columns the engine reads) *)
(* ===================================================================== *)

Module Impression.
Record t := mk {
  timestamp : Timestamp;
  campaign_id : string;
  publisher_id : string;
  device_type : string;
  geo_country : string;
  auction_type : string;
  bid_price : Q;
  win_price : Q;
  impression_outcome : string
}.
End Impression.

Module Click.
Record t := mk {
  click_id : string;
  timestamp : Timestamp;
  campaign_id : string;
  click_cost : Q
}.
End Click.

Module Conversion.
Record t := mk {
  conversion_id : string;
  timestamp : Timestamp;
  campaign_id : string;
  conversion_value : Q
}.
End Conversion.

Module Campaign.
Record t := mk {
  campaign_id : string;
  campaign_name : string;
  advertiser_id : string;
  start_date : Date;
  end_date : Date;
  budget_total : Q;
  budget_daily : Q;
  objective : string;
  status : string
}.
End Campaign.

Module Advertiser.
Record t := mk {
  advertiser_id : string;
  advertiser_name : string;
  industry : string
}.
End Advertiser.

(** [impressions_df[impressions_df['impression_outcome'] == 'won']] *)
Definition is_won (i : Impression.t) : bool :=
  String.eqb (Impression.impression_outcome i) "won".

Definition won_of (impressions_df : list Impression.t) : list Impression.t :=
  filter is_won impressions_df.

(** [Series.min()] / [Series.max()] of a timestamp column. *)
Definition ts_min (l : list Timestamp) : option Timestamp :=
  match l with
  | [] => None
  | t :: r => Some (fold_left (fun a b => if ts_leb a b then a else b) r t)
  end.

Definition ts_max (l : list Timestamp) : option Timestamp :=
  match l with
  | [] => None
  | t :: r => Some (fold_left (fun a b => if ts_leb a b then b else a) r t)
  end.

(* ===================================================================== *)
(** ** [calculate_basic_metrics] *)
(* ===================================================================== *)

Module Metrics.
(** The campaign columns joined on at the end; absent ([NaN]) when the
    campaign table has no row for the id. *)
Record info := mkInfo {
  campaign_name : string;
  advertiser_id : string;
  budget_total : Q;
  budget_daily : Q;
  objective : string;
  status : string
}.

Record t := mk {
  campaign_id : string;
  total_spend_raw : Q;
  avg_cpm : Q;
  impressions_served : nat;
  first_impression : option Timestamp;
  last_impression : option Timestamp;
  spend : Q;
  ecpm : Q;
  clicks : nat;
  click_spend : Q;
  conversions : nat;
  conversion_value : Q;
  ctr : Q;
  cpc : Q;
  cpa : Q;
  roas : Q;
  conversion_rate : Q;
  campaign : option info
}.
End Metrics.

(** [won_impressions.groupby('campaign_id').agg({'win_price':
    ['sum','mean','count'], 'timestamp': ['min','max']}).round(2)] *)
Record impression_agg := mkImpAgg {
  ia_total_spend_raw : Q;
  ia_avg_cpm : Q;
  ia_impressions_served : nat;
  ia_first_impression : option Timestamp;
  ia_last_impression : option Timestamp
}.

Definition agg_impressions (g : list Impression.t) : impression_agg :=
  let prices := map Impression.win_price g in
  let stamps := map Impression.timestamp g in
  mkImpAgg (round2 (Qsum prices)) (round2 (Qmean prices)) (length g)
           (ts_min stamps) (ts_max stamps).

Definition impression_metrics (won_impressions : list Impression.t)
  : list (string * impression_agg) :=
  map (fun kg => (fst kg, agg_impressions (snd kg)))
      (groupby Impression.campaign_id won_impressions).

(** [clicks_df.groupby('campaign_id').agg({'click_id': 'count',
    'click_cost': 'sum'}).round(2)] *)
Definition click_metrics (clicks_df : list Click.t) : list (string * (nat * Q)) :=
  map (fun kg => (fst kg, (length (snd kg), round2 (Qsum (map Click.click_cost (snd kg))))))
      (groupby Click.campaign_id clicks_df).

(** [conversions_df.groupby('campaign_id').agg({'conversion_id': 'count',
    'conversion_value': 'sum'}).round(2)] *)
Definition conversion_metrics (conversions_df : list Conversion.t)
  : list (string * (nat * Q)) :=
  map (fun kg => (fst kg, (length (snd kg),
                           round2 (Qsum (map Conversion.conversion_value (snd kg))))))
      (groupby Conversion.campaign_id conversions_df).

(** [.join(right, how='left').fillna(0)] for one left row: the right
    row with that index, or zeros. *)
Definition join_fillna0 (k : string) (right : list (string * (nat * Q))) : nat * Q :=
  match index_lookup k right with
  | Some v => v
  | None => (0%nat, 0)
  end.

(** The derived ratios, as the source writes them. *)
Definition ctr_of (clicks impressions_served : nat) : Q :=
  round3 (Qof_nat clicks / Qof_nat impressions_served * 100).

Definition cpc_of (spend : Q) (clicks : nat) : Q :=
  round2 (if (0 <? clicks)%nat then spend / Qof_nat clicks else 0).

Definition cpa_of (spend : Q) (conversions : nat) : Q :=
  round2 (if (0 <? conversions)%nat then spend / Qof_nat conversions else 0).

Definition roas_of (conversion_value spend : Q) : Q :=
  round2 (if Qgtb spend 0 then conversion_value / spend else 0).

Definition conversion_rate_of (conversions clicks : nat) : Q :=
  round3 (if (0 <? clicks)%nat then Qof_nat conversions / Qof_nat clicks * 100 else 0).

Definition spend_of (total_spend_raw : Q) (impressions_served : nat) : Q :=
  round2 (total_spend_raw * Qof_nat impressions_served / 1000).

Definition ecpm_of (spend : Q) (impressions_served : nat) : Q :=
  round2 (spend / (Qof_nat impressions_served / 1000)).

Definition campaign_info (c : Campaign.t) : Metrics.info :=
  Metrics.mkInfo (Campaign.campaign_name c) (Campaign.advertiser_id c)
                 (Campaign.budget_total c) (Campaign.budget_daily c)
                 (Campaign.objective c) (Campaign.status c).

(** One row of [metrics_df] before the campaign columns are joined. *)
Definition metrics_row (k : string) (a : impression_agg)
    (cl cv : nat * Q) (c : option Metrics.info) : Metrics.t :=
  let spend := spend_of (ia_total_spend_raw a) (ia_impressions_served a) in
  let ecpm := ecpm_of spend (ia_impressions_served a) in
  Metrics.mk k (ia_total_spend_raw a) (ia_avg_cpm a) (ia_impressions_served a)
    (ia_first_impression a) (ia_last_impression a) spend ecpm
    (fst cl) (snd cl) (fst cv) (snd cv)
    (ctr_of (fst cl) (ia_impressions_served a))
    (cpc_of spend (fst cl))
    (cpa_of spend (fst cv))
    (roas_of (snd cv) spend)
    (conversion_rate_of (fst cv) (fst cl))
    c.

(** [metrics_df.join(campaigns_df.set_index('campaign_id')[...])]: a left
    join; one output row per matching campaign row, and a row without
    campaign columns when there is none. *)
Definition join_campaigns (campaigns_df : list Campaign.t) (k : string)
    (row : option Metrics.info -> Metrics.t) : list Metrics.t :=
  match rows_with Campaign.campaign_id k campaigns_df with
  | [] => [row None]
  | cs => map (fun c => row (Some (campaign_info c))) cs
  end.

Definition calculate_basic_metrics
    (impressions_df : list Impression.t) (clicks_df : list Click.t)
    (conversions_df : list Conversion.t) (campaigns_df : list Campaign.t)
  : list Metrics.t :=
  let won_impressions := won_of impressions_df in
  let cm := click_metrics clicks_df in
  let vm := conversion_metrics conversions_df in
  flat_map (fun ka =>
              join_campaigns campaigns_df (fst ka)
                (metrics_row (fst ka) (snd ka)
                             (join_fillna0 (fst ka) cm) (join_fillna0 (fst ka) vm)))
           (impression_metrics won_impressions).

(* ===================================================================== *)
(** ** [calculate_revenue_by_channel] *)
(* ===================================================================== *)

Module Revenue.
Record t := mk { channel : string; revenue : Q; channel_type : string }.
End Revenue.

(** [left.merge(right, on=key)]: pandas' default inner join.  Each left
    row is paired with every right row carrying its key; a left row
    without a partner is dropped. *)
Definition merge_inner {K A B : Type} `{KeyOrder K}
    (lkey : A -> K) (rkey : B -> K) (left : list A) (right : list B) : list (A * B) :=
  flat_map (fun a => map (pair a) (rows_with rkey (lkey a) right)) left.

(** [won_impressions['spend'] = (won_impressions['win_price'] * 1 / 1000).round(2)] *)
Definition impression_spend (i : Impression.t) : Q :=
  round2 (Impression.win_price i * 1 / 1000).

(** [df.groupby(key)['spend'].sum().reset_index()], renamed to
    [channel] / [revenue] and tagged with the channel type. *)
Definition revenue_by {A : Type} (key : A -> string) (spend : A -> Q)
    (channel_type : string) (df : list A) : list Revenue.t :=
  map (fun kg => Revenue.mk (fst kg) (Qsum (map spend (snd kg))) channel_type)
      (groupby key df).

(** The two-hop join impression -> campaign -> advertiser. *)
Definition impression_with_industry (won_impressions : list Impression.t)
    (campaigns_df : list Campaign.t) (advertisers_df : list Advertiser.t)
  : list ((Impression.t * Campaign.t) * Advertiser.t) :=
  merge_inner (fun ic => Campaign.advertiser_id (snd ic)) Advertiser.advertiser_id
    (merge_inner Impression.campaign_id Campaign.campaign_id won_impressions campaigns_df)
    advertisers_df.

Definition device_revenue (won : list Impression.t) : list Revenue.t :=
  revenue_by Impression.device_type impression_spend "device" won.

Definition auction_revenue (won : list Impression.t) : list Revenue.t :=
  revenue_by Impression.auction_type impression_spend "auction" won.

Definition geo_revenue (won : list Impression.t) : list Revenue.t :=
  revenue_by Impression.geo_country impression_spend "geo" won.

Definition industry_revenue (won : list Impression.t)
    (campaigns_df : list Campaign.t) (advertisers_df : list Advertiser.t)
  : list Revenue.t :=
  revenue_by (fun r => Advertiser.industry (snd r))
             (fun r => impression_spend (fst (fst r))) "industry"
             (impression_with_industry won campaigns_df advertisers_df).

Definition calculate_revenue_by_channel
    (impressions_df : list Impression.t) (campaigns_df : list Campaign.t)
    (advertisers_df : list Advertiser.t) : list Revenue.t :=
  let won_impressions := won_of impressions_df in
  device_revenue won_impressions ++ auction_revenue won_impressions
    ++ geo_revenue won_impressions
    ++ industry_revenue won_impressions campaigns_df advertisers_df.

(** The rows of one dimension in the long-form output. *)
Definition dimension (channel_type : string) (all_revenue : list Revenue.t)
  : list Revenue.t :=
  filter (fun r => String.eqb (Revenue.channel_type r) channel_type) all_revenue.



(* ===================================================================== *)
(** ** The environment: random source and clock *)
(* ===================================================================== *)

(** [np.random] hands out a sequence of uniform variates in [0,1);
    [random_sample n] is the [n]-th number the generator will produce.
    [today] is [datetime.now().date()]. *)
Record Env := mkEnv { random_sample : nat -> Q; today : Date }.

(** The [n] variates drawn by one call, starting at position [pos]. *)
Definition draw (e : Env) (pos n : nat) : list Q :=
  map (random_sample e) (seq pos n).

(** [np.random.uniform(low, high, n)] *)
Definition random_uniform (e : Env) (pos n : nat) (low high : Q) : list Q :=
  map (fun u => low + (high - low) * u) (draw e pos n).

(** [np.random.choice(['paid', 'outstanding'], size=n, p=[p_paid, _])]:
    the first option when the variate falls below its probability. *)
Definition random_payment_status (e : Env) (pos n : nat) (p_paid : Q) : list string :=
  map (fun u => if Qltb u p_paid then "paid" else "outstanding") (draw e pos n).

(* ===================================================================== *)
(** ** [calculate_margin_analysis] *)
(* ===================================================================== *)

Module Margin.
Record info := mkInfo {
  campaign_name : string;
  advertiser_id : string;
  objective : string
}.

Record t := mk {
  campaign_id : string;
  total_buy_cost : Q;
  total_sell_revenue : Q;
  total_margin : Q;
  avg_margin_pct : Q;
  impressions : nat;
  margin_per_impression : Q;
  campaign : option info
}.
End Margin.

(** A won impression with the four columns the margin analysis adds. *)
Record margin_row := mkMarginRow {
  mr_impression : Impression.t;
  buy_side_cost : Q;
  sell_side_revenue : Q;
  margin : Q;
  margin_pct : Q
}.

Definition with_margin (i : Impression.t) (share : Q) : margin_row :=
  let buy := round2 (Impression.win_price i * share) in
  let sell := Impression.win_price i in
  let m := round2 (sell - buy) in
  mkMarginRow i buy sell m (round2 (m / sell * 100)).

Definition margin_rows (e : Env) (won_impressions : list Impression.t)
  : list margin_row :=
  map (fun iu => with_margin (fst iu) (snd iu))
      (combine won_impressions
               (random_uniform e 0 (length won_impressions) (7 # 10) (8 # 10))).

Definition margin_of_group (campaigns_df : list Campaign.t) (k : string)
    (g : list margin_row) : list Margin.t :=
  let total_margin := round2 (Qsum (map margin g)) in
  let row := Margin.mk k
               (round2 (Qsum (map buy_side_cost g)))
               (round2 (Qsum (map sell_side_revenue g)))
               total_margin
               (round2 (Qmean (map margin_pct g)))
               (length g)
               (round_dp 4 (total_margin / Qof_nat (length g))) in
  match rows_with Campaign.campaign_id k campaigns_df with
  | [] => [row None]
  | cs => map (fun c => row (Some (Margin.mkInfo (Campaign.campaign_name c)
                                     (Campaign.advertiser_id c)
                                     (Campaign.objective c)))) cs
  end.

Definition calculate_margin_analysis (e : Env)
    (impressions_df : list Impression.t) (campaigns_df : list Campaign.t)
  : list Margin.t :=
  let won_impressions := margin_rows e (won_of impressions_df) in
  flat_map (fun kg => margin_of_group campaigns_df (fst kg) (snd kg))
           (groupby (fun r => Impression.campaign_id (mr_impression r)) won_impressions).

(* ===================================================================== *)
(** ** [calculate_pacing_analysis] *)
(* ===================================================================== *)

Module Pacing.
Record t := mk {
  campaign_id : string;
  campaign_name : string;
  budget_total : Q;
  budget_daily : Q;
  total_spend : Q;
  avg_daily_spend : Q;
  forecasted_spend : Q;
  budget_spent_pct : Q;
  time_elapsed_pct : Q;
  pacing_status : string;
  days_active : nat;
  total_days : Z
}.
End Pacing.

(** [won_impressions['spend'] = (won_impressions['win_price'] / 1000).round(2)] *)
Definition spend_per_impression (i : Impression.t) : Q :=
  round2 (Impression.win_price i / 1000).

(** [won_impressions['date'] = won_impressions['timestamp'].dt.date] *)
Definition impression_date (i : Impression.t) : Date :=
  ts_date (Impression.timestamp i).

(** [campaign_impressions.groupby('date')['spend'].sum()] *)
Definition daily_spend (campaign_impressions : list Impression.t) : list (Date * Q) :=
  map (fun kg => (fst kg, Qsum (map spend_per_impression (snd kg))))
      (groupby impression_date campaign_impressions).

(** [(campaign['end_date'] - campaign['start_date']).days + 1] *)
Definition campaign_days (c : Campaign.t) : Z :=
  (days_between (Campaign.end_date c) (Campaign.start_date c) + 1)%Z.

Definition budget_spent_pct (total_spend budget_total : Q) : Q :=
  if Qgtb budget_total 0 then total_spend / budget_total * 100 else 0.

Definition time_elapsed_pct (days_elapsed : nat) (campaign_days : Z) : Q :=
  if (0 <? campaign_days)%Z
  then Qof_nat days_elapsed / inject_Z campaign_days * 100 else 0.

Definition pacing_status (budget_spent_pct time_elapsed_pct : Q) : string :=
  if Qgtb budget_spent_pct (time_elapsed_pct + 10) then "ahead"
  else if Qltb budget_spent_pct (time_elapsed_pct - 10) then "behind"
  else "on_pace".

(** The body of the loop, after the [continue] guard. *)
Definition pacing_row (c : Campaign.t) (campaign_impressions : list Impression.t)
  : Pacing.t :=
  let ds := daily_spend campaign_impressions in
  let total_spend := Qsum (map snd ds) in
  let days := campaign_days c in
  let days_elapsed := length ds in
  let b := budget_spent_pct total_spend (Campaign.budget_total c) in
  let t := time_elapsed_pct days_elapsed days in
  let avg_daily_spend :=
    if (0 <? days_elapsed)%nat then total_spend / Qof_nat days_elapsed else 0 in
  let forecasted_spend := avg_daily_spend * inject_Z days in
  Pacing.mk (Campaign.campaign_id c) (Campaign.campaign_name c)
    (Campaign.budget_total c) (Campaign.budget_daily c)
    (round2 total_spend) (round2 avg_daily_spend) (round2 forecasted_spend)
    (round_dp 1 b) (round_dp 1 t) (pacing_status b t) days_elapsed days.

Definition calculate_pacing_analysis
    (impressions_df : list Impression.t) (campaigns_df : list Campaign.t)
  : list Pacing.t :=
  let won_impressions := won_of impressions_df in
  flat_map (fun c =>
              let campaign_impressions :=
                rows_with Impression.campaign_id (Campaign.campaign_id c) won_impressions in
              if (length campaign_impressions =? 0)%nat then []
              else [pacing_row c campaign_impressions])
           campaigns_df.

(* ===================================================================== *)
(** ** [calculate_cash_flow_analysis] *)
(* ===================================================================== *)

Module Receivable.
Record t := mk {
  advertiser_id : string;
  month_year : Period;
  spend : Q;
  advertiser_name : string;
  due_date : Date;
  days_outstanding : Z;
  aging_category : string;
  payment_status : string;
  outstanding_amount : Q
}.
End Receivable.

Module Payable.
Record t := mk {
  publisher_id : string;
  month_year : Period;
  publisher_payout : Q;
  publisher_name : string;
  due_date : Date;
  days_outstanding : Z;
  aging_category : string;
  payment_status : string;
  outstanding_amount : Q
}.
End Payable.

(** The aging lambda, the same text for receivables and payables. *)
Definition aging_category (x : Z) : string :=
  if (x <=? 0)%Z then "current"
  else if (x <=? 30)%Z then "30_days"
  else if (x <=? 60)%Z then "60_days"
  else "90_plus_days".

(** [won_impressions['month_year'] = won_impressions['timestamp'].dt.to_period('M')] *)
Definition impression_month (i : Impression.t) : Period :=
  to_period (ts_date (Impression.timestamp i)).

(** [s.split(sep)] *)
Fixpoint split_on (sep : Ascii.ascii) (s : string) : list string :=
  match s with
  | EmptyString => [EmptyString]
  | String c r =>
      if Ascii.eqb c sep then EmptyString :: split_on sep r
      else match split_on sep r with
           | h :: t => String c h :: t
           | [] => [String c EmptyString]
           end
  end.

(** [f"Publisher {pub_id.split('_')[1]}"]; [None] is the [IndexError]
    of an id without an underscore. *)
Definition publisher_display_name (pub_id : string) : option string :=
  match nth_error (split_on "_"%char pub_id) 1 with
  | Some n => Some ("Publisher " ++ n)%string
  | None => None
  end.

(** The dict comprehension over [publishers]; it fails as a whole when
    one id fails. *)
Fixpoint publisher_names (publishers : list string) : option (list (string * string)) :=
  match publishers with
  | [] => Some []
  | p :: r =>
      match publisher_display_name p, publisher_names r with
      | Some n, Some d => Some ((p, n) :: d)
      | _, _ => None
      end
  end.

Definition outstanding_of (status : string) (amount : Q) : Q :=
  round2 (if String.eqb status "outstanding" then amount else 0).

(** [receivables] up to the merge with the advertiser names:
    (advertiser_id, month_year), spend, advertiser row. *)
Definition receivables_base (won_impressions : list Impression.t)
    (campaigns_df : list Campaign.t) (advertisers_df : list Advertiser.t)
  : list ((string * Period * Q) * Advertiser.t) :=
  let impression_with_advertiser :=
    merge_inner Impression.campaign_id Campaign.campaign_id won_impressions campaigns_df in
  let grouped :=
    map (fun kg => (fst kg, Qsum (map (fun ic => spend_per_impression (fst ic)) (snd kg))))
        (groupby (fun ic => (Campaign.advertiser_id (snd ic), impression_month (fst ic)))
                 impression_with_advertiser) in
  merge_inner (fun r => fst (fst r)) Advertiser.advertiser_id grouped advertisers_df.

Definition receivable_row (current_date : Date)
    (r : (string * Period * Q) * Advertiser.t) (payment_status : string)
  : Receivable.t :=
  let month_year := snd (fst (fst r)) in
  let spend := snd (fst r) in
  let due_date := add_days (month_end month_year) 45 in
  let days_outstanding := days_between current_date due_date in
  Receivable.mk (fst (fst (fst r))) month_year spend
    (Advertiser.advertiser_name (snd r)) due_date days_outstanding
    (aging_category days_outstanding) payment_status
    (outstanding_of payment_status spend).

Definition receivables_of (e : Env) (pos : nat)
    (base : list ((string * Period * Q) * Advertiser.t)) : list Receivable.t :=
  map (fun rs => receivable_row (today e) (fst rs) (snd rs))
      (combine base (random_payment_status e pos (length base) (9 # 10))).

(** [payables] after the groupby: (publisher_id, month_year), payout. *)
Definition payables_base (e : Env) (pos : nat) (won_impressions : list Impression.t)
  : list (string * Period * Q) :=
  let with_payout :=
    map (fun iu => (fst iu, round2 (spend_per_impression (fst iu) * snd iu)))
        (combine won_impressions
                 (random_uniform e pos (length won_impressions) (7 # 10) (8 # 10))) in
  map (fun kg => (fst kg, Qsum (map snd (snd kg))))
      (groupby (fun ip => (Impression.publisher_id (fst ip), impression_month (fst ip)))
               with_payout).

(** [payables['publisher_id'].map(publisher_names)]; an id missing from
    the dict would give NaN, which cannot happen: the dict is built
    from the same ids. *)
Definition lookup_name (names : list (string * string)) (k : string) : string :=
  match index_lookup k names with
  | Some n => n
  | None => "NaN"
  end.

Definition payable_row (current_date : Date) (names : list (string * string))
    (p : string * Period * Q) (payment_status : string) : Payable.t :=
  let month_year := snd (fst p) in
  let payout := snd p in
  let due_date := add_days (month_end month_year) 30 in
  let days_outstanding := days_between current_date due_date in
  Payable.mk (fst (fst p)) month_year payout (lookup_name names (fst (fst p)))
    due_date days_outstanding (aging_category days_outstanding) payment_status
    (outstanding_of payment_status payout).

Definition payables_of (e : Env) (pos : nat) (names : list (string * string))
    (base : list (string * Period * Q)) : list Payable.t :=
  map (fun ps => payable_row (today e) names (fst ps) (snd ps))
      (combine base (random_payment_status e pos (length base) (95 # 100))).

(** The function raises (here: [None]) exactly when a publisher id of a
    won impression has no underscore.  The random source is consumed in
    program order: receivables statuses, payout shares, payables
    statuses. *)
Definition calculate_cash_flow_analysis (e : Env)
    (impressions_df : list Impression.t) (campaigns_df : list Campaign.t)
    (advertisers_df : list Advertiser.t)
  : option (list Receivable.t * list Payable.t) :=
  let won_impressions := won_of impressions_df in
  let rbase := receivables_base won_impressions campaigns_df advertisers_df in
  let receivables := receivables_of e 0 rbase in
  let publishers := unique (map Impression.publisher_id won_impressions) in
  match publisher_names publishers with
  | None => None
  | Some names =>
      let pos1 := length rbase in
      let pbase := payables_base e pos1 won_impressions in
      let pos2 := (pos1 + length won_impressions)%nat in
      Some (receivables, payables_of e pos2 names pbase)
  end.

(** ** The engine as a whole *)

Record Tables := mkTables {
  impressions : list Impression.t;
  clicks : list Click.t;
  conversions : list Conversion.t;
  campaigns : list Campaign.t;
  advertisers : list Advertiser.t
}.

(** The five aggregation functions of the metrics engine. *)
Inductive Aggregation :=
| BasicMetrics | RevenueByChannel | MarginAnalysis | PacingAnalysis | CashFlowAnalysis.

Inductive Output :=
| MetricsTable (rows : list Metrics.t)
| RevenueTable (rows : list Revenue.t)
| MarginTable (rows : list Margin.t)
| PacingTable (rows : list Pacing.t)
| CashFlowTables (result : option (list Receivable.t * list Payable.t)).

(* ===================================================================== *)
(** * The same functions as programs over a store of DataFrames *)
(* ===================================================================== *)

(** To speak about what a call does to the tables it is handed, the
    functions are written once more the way the source is: DataFrames
    are objects in a store, expressions such as [df[mask]], [.copy()],
    [.groupby().agg()], [.join()], [.merge()] build a new object, and
    [df[col] = ...] and [df.columns = ...] update an object in place. *)

Module Frame.

(** A cell of a DataFrame. *)
Inductive Val :=
| VStr (s : string)
| VNum (q : Q)
| VInt (n : Z)
| VTime (t : Timestamp)
| VDate (d : Date)
| VPeriod (p : Period)
| NaN.

(** A row maps column names to cells; a column that is absent reads
    as [NaN]. *)
Definition Row := list (string * Val).

(** [index] names the columns that form the index (none for the
    default RangeIndex), [columns] the other columns, in order. *)
Record DataFrame := mkDF {
  index : list string;
  columns : list string;
  rows : list Row
}.

Definition empty : DataFrame := mkDF [] [] [].

Definition cell (col : string) (r : Row) : Val :=
  match find (fun c => String.eqb (fst c) col) r with
  | Some c => snd c
  | None => NaN
  end.

Fixpoint set_cell (col : string) (v : Val) (r : Row) : Row :=
  match r with
  | [] => [(col, v)]
  | (c, x) :: r' => if String.eqb c col then (c, v) :: r' else (c, x) :: set_cell col v r'
  end.

Definition drop_cells (cols : list string) (r : Row) : Row :=
  filter (fun c => negb (existsb (String.eqb (fst c)) cols)) r.

Definition keep_cells (cols : list string) (r : Row) : Row :=
  map (fun c => (c, cell c r)) cols.

Definition remove_name (col : string) (cols : list string) : list string :=
  filter (fun c => negb (String.eqb c col)) cols.

Definition add_name (col : string) (cols : list string) : list string :=
  if existsb (String.eqb col) cols then cols else cols ++ [col].

(** *** Cell arithmetic; [NaN] propagates *)

Definition num (v : Val) : Q :=
  match v with
  | VNum q => q
  | VInt n => inject_Z n
  | _ => 0
  end.

Definition is_nan (v : Val) : bool :=
  match v with NaN => true | _ => false end.

Definition lift2 (f : Q -> Q -> Q) (a b : Val) : Val :=
  if is_nan a || is_nan b then NaN else VNum (f (num a) (num b)).

Definition vmul : Val -> Val -> Val := lift2 Qmult.
Definition vdiv : Val -> Val -> Val := lift2 Qdiv.
Definition vsub : Val -> Val -> Val := lift2 Qminus.

Definition vround (d : nat) (v : Val) : Val :=
  match v with
  | VNum q => VNum (round_dp d q)
  | _ => v
  end.

(** [np.where(c > 0, a, 0)] *)
Definition where_positive (c a : Val) : Val :=
  if Qgtb (num c) 0 then a else VNum 0.

(** *** Cells as group labels *)

Definition Q_eqb (a b : Q) : bool :=
  (Qnum a =? Qnum b)%Z && (Qden a =? Qden b)%positive.

Definition ts_eqb (a b : Timestamp) : bool :=
  date_eqb (ts_date a) (ts_date b) && (ts_secs a =? ts_secs b)%Z.

Definition val_eqb (a b : Val) : bool :=
  match a, b with
  | VStr x, VStr y => String.eqb x y
  | VNum x, VNum y => Q_eqb x y
  | VInt x, VInt y => (x =? y)%Z
  | VTime x, VTime y => ts_eqb x y
  | VDate x, VDate y => date_eqb x y
  | VPeriod x, VPeriod y => period_eqb x y
  | NaN, NaN => true
  | _, _ => false
  end.

Definition rank (v : Val) : Z :=
  match v with
  | VStr _ => 0 | VNum _ => 1 | VInt _ => 2 | VTime _ => 3
  | VDate _ => 4 | VPeriod _ => 5 | NaN => 6
  end.

Definition val_leb (a b : Val) : bool :=
  match a, b with
  | VStr x, VStr y => String.leb x y
  | VNum x, VNum y => Qle_bool x y
  | VInt x, VInt y => (x <=? y)%Z
  | VTime x, VTime y => ts_leb x y
  | VDate x, VDate y => date_leb x y
  | VPeriod x, VPeriod y => period_leb x y
  | _, _ => (rank a <=? rank b)%Z
  end.

Lemma val_eqb_eq (a b : Val) : val_eqb a b = true <-> a = b.
Proof.
  destruct a, b; simpl; try (split; [discriminate | intros E; discriminate E]).
  - rewrite String.eqb_eq. split; [intros -> | intros E; inversion E]; reflexivity.
  - unfold Q_eqb. rewrite andb_true_iff, Z.eqb_eq, Pos.eqb_eq.
    destruct q, q0; simpl.
    split; [intros [-> ->] | intros E; inversion E]; auto.
  - rewrite Z.eqb_eq. split; [intros -> | intros E; inversion E]; reflexivity.
  - unfold ts_eqb. rewrite andb_true_iff, date_eqb_eq, Z.eqb_eq.
    destruct t, t0; simpl.
    split; [intros [-> ->] | intros E; inversion E]; auto.
  - rewrite date_eqb_eq. split; [intros -> | intros E; inversion E]; reflexivity.
  - rewrite period_eqb_eq. split; [intros -> | intros E; inversion E]; reflexivity.
  - split; reflexivity.
Qed.

#[export] Instance KeyOrder_Val : KeyOrder Val :=
  {| key_eqb := val_eqb; key_leb := val_leb; key_eqb_eq := val_eqb_eq |}.

Section ListKeys.
Context {K : Type} `{KeyOrder K}.

Fixpoint list_eqb (a b : list K) : bool :=
  match a, b with
  | [], [] => true
  | x :: a', y :: b' => key_eqb x y && list_eqb a' b'
  | _, _ => false
  end.

(** Lexicographic, as pandas sorts the labels of a multi-key groupby. *)
Fixpoint list_leb (a b : list K) : bool :=
  match a, b with
  | [], _ => true
  | _ :: _, [] => false
  | x :: a', y :: b' => if key_eqb x y then list_leb a' b' else key_leb x y
  end.

Lemma list_eqb_eq (a b : list K) : list_eqb a b = true <-> a = b.
Proof.
  revert b. induction a as [| x a IH]; intros [| y b]; simpl;
    try (split; [discriminate | intros E; discriminate E]).
  - split; reflexivity.
  - rewrite andb_true_iff, key_eqb_eq, IH.
    split; [intros [-> ->] | intros E; inversion E]; auto.
Qed.
End ListKeys.

#[export] Instance KeyOrder_list {K : Type} `{KeyOrder K} : KeyOrder (list K) :=
  {| key_eqb := list_eqb; key_leb := list_leb; key_eqb_eq := list_eqb_eq |}.

(** *** Expressions that build a DataFrame *)

(** [df[mask]] *)
Definition select (p : Row -> bool) (df : DataFrame) : DataFrame :=
  mkDF (index df) (columns df) (filter p (rows df)).

(** [df[col] = expr], [expr] computed row by row; [i] is the position
    of the row, for right-hand sides that are arrays. *)
Definition assign (col : string) (f : nat -> Row -> Val) (df : DataFrame) : DataFrame :=
  mkDF (index df) (add_name col (columns df))
       (map (fun ir => set_cell col (f (fst ir) (snd ir)) (snd ir))
            (combine (seq 0 (length (rows df))) (rows df))).

(** [df.columns = names] *)
Definition rename_columns (names : list string) (df : DataFrame) : DataFrame :=
  mkDF (index df) names
       (map (fun r => keep_cells (index df) r
                      ++ map (fun on => (snd on, cell (fst on) r))
                             (combine (columns df) names))
            (rows df)).

Inductive Agg := Sum | Mean | Count | Min | Max.

Definition times (vs : list Val) : list Timestamp :=
  flat_map (fun v => match v with VTime t => [t] | _ => [] end) vs.

Definition aggregate (a : Agg) (vs : list Val) : Val :=
  match a with
  | Sum => VNum (Qsum (map num vs))
  | Mean => VNum (Qmean (map num vs))
  | Count => VInt (Z.of_nat (length vs))
  | Min => match ts_min (times vs) with Some t => VTime t | None => NaN end
  | Max => match ts_max (times vs) with Some t => VTime t | None => NaN end
  end.

(** [df.groupby(keys).agg(...)]: one row per label, indexed by the
    keys; each output column [out] aggregates column [col]. *)
Definition groupby_agg (keys : list string) (aggs : list (string * (string * Agg)))
    (df : DataFrame) : DataFrame :=
  mkDF keys (map fst aggs)
       (map (fun kg =>
               combine keys (fst kg)
               ++ map (fun a => (fst a, aggregate (snd (snd a))
                                          (map (cell (fst (snd a))) (snd kg))))
                      aggs)
            (groupby (fun r => map (fun k => cell k r) keys) (rows df))).

(** [df.round(d)] *)
Definition round_frame (d : nat) (df : DataFrame) : DataFrame :=
  mkDF (index df) (columns df)
       (map (map (fun c => (fst c, vround d (snd c)))) (rows df)).

(** [df.fillna(0)] *)
Definition fillna0 (df : DataFrame) : DataFrame :=
  mkDF (index df) (columns df)
       (map (map (fun c => (fst c, if is_nan (snd c) then VNum 0 else snd c))) (rows df)).

(** [left.join(right, how='left')]: on the index. *)
Definition join_left (left right : DataFrame) : DataFrame :=
  let key r := map (fun k => cell k r) (index left) in
  let rkey r := map (fun k => cell k r) (index right) in
  mkDF (index left) (columns left ++ columns right)
       (flat_map (fun l =>
                    match filter (fun r => key_eqb (rkey r) (key l)) (rows right) with
                    | [] => [l ++ map (fun c => (c, NaN)) (columns right)]
                    | ms => map (fun r => l ++ keep_cells (columns right) r) ms
                    end)
                 (rows left)).

(** [left.merge(right, on=col)]: inner join on a column. *)
Definition merge (on : string) (left right : DataFrame) : DataFrame :=
  mkDF (index left) (columns left ++ remove_name on (columns right))
       (flat_map (fun l =>
                    map (fun r => l ++ keep_cells (remove_name on (columns right)) r)
                        (filter (fun r => val_eqb (cell on r) (cell on l)) (rows right)))
                 (rows left)).

(** [df[[c1, c2, ...]]] *)
Definition project (cols : list string) (df : DataFrame) : DataFrame :=
  mkDF (index df) cols (map (fun r => keep_cells (index df ++ cols) r) (rows df)).

(** [df.set_index(col)] *)
Definition set_index (col : string) (df : DataFrame) : DataFrame :=
  mkDF [col] (remove_name col (columns df)) (rows df).

(** [df.reset_index()] *)
Definition reset_index (df : DataFrame) : DataFrame :=
  mkDF [] (index df ++ columns df) (rows df).

(** [pd.concat(frames, ignore_index=True)] *)
Definition concat (frames : list DataFrame) : DataFrame :=
  mkDF [] (match frames with [] => [] | a :: _ => columns a end)
       (flat_map rows frames).

(** [df[col].unique()] *)
Definition column_unique (col : string) (df : DataFrame) : list Val :=
  unique (map (cell col) (rows df)).

End Frame.

(** ** The store *)

Module Store.
Import Frame.

(** A reference to a DataFrame object, and the objects that exist. *)
Definition ref := nat.
Definition Heap := list DataFrame.

(** Computations that read and update the store. *)
Definition M (A : Type) : Type := Heap -> A * Heap.

Definition ret {A : Type} (a : A) : M A := fun h => (a, h).

Definition bind {A B : Type} (m : M A) (k : A -> M B) : M B :=
  fun h => let (a, h') := m h in k a h'.

Declare Scope store_scope.
Delimit Scope store_scope with store.
Notation "x <- c ;; k" := (bind c (fun x => k))
  (at level 61, c at next level, right associativity) : store_scope.
Notation "c ;; k" := (bind c (fun _ => k))
  (at level 61, right associativity) : store_scope.
Local Open Scope store_scope.

(** A new object, at a reference that did not exist before. *)
Definition alloc (df : DataFrame) : M ref :=
  fun h => (length h, h ++ [df]).

Definition load (r : ref) : M DataFrame :=
  fun h => (nth r h Frame.empty, h).

Fixpoint update_nth (r : nat) (df : DataFrame) (h : Heap) : Heap :=
  match h, r with
  | [], _ => []
  | _ :: t, O => df :: t
  | x :: t, S r' => x :: update_nth r' df t
  end.

(** Overwrite the object at [r]: every holder of [r] sees the change. *)
Definition store (r : ref) (df : DataFrame) : M unit :=
  fun h => (tt, update_nth r df h).

(** An expression over one, two or several DataFrames whose value is a
    new DataFrame. *)
Definition new1 (f : DataFrame -> DataFrame) (r : ref) : M ref :=
  df <- load r ;; alloc (f df).

Definition new2 (f : DataFrame -> DataFrame -> DataFrame) (r1 r2 : ref) : M ref :=
  a <- load r1 ;; b <- load r2 ;; alloc (f a b).

Fixpoint load_all (rs : list ref) : M (list DataFrame) :=
  match rs with
  | [] => ret []
  | r :: rs' => df <- load r ;; dfs <- load_all rs' ;; ret (df :: dfs)
  end.

Definition new_of (f : list DataFrame -> DataFrame) (rs : list ref) : M ref :=
  dfs <- load_all rs ;; alloc (f dfs).

(** A statement that changes the object [r] refers to. *)
Definition inplace (f : DataFrame -> DataFrame) (r : ref) : M unit :=
  df <- load r ;; store r (f df).

(** [df.copy()] *)
Definition copy : ref -> M ref := new1 (fun df => df).

(** [len(df)] *)
Definition len (r : ref) : M nat := df <- load r ;; ret (length (rows df)).

(** [for x in xs: acc = body(acc, x)] *)
Fixpoint for_each {A S : Type} (xs : list A) (body : S -> A -> M S) (acc : S) : M S :=
  match xs with
  | [] => ret acc
  | x :: xs' => acc' <- body acc x ;; for_each xs' body acc'
  end.

(** *** Column expressions *)

Definition has_value (col value : string) (r : Row) : bool :=
  val_eqb (cell col r) (VStr value).

Definition same (col : string) (other r : Row) : bool :=
  val_eqb (cell col r) (cell col other).

Definition date_of (v : Val) : Val :=
  match v with VTime t => VDate (ts_date t) | _ => NaN end.

Definition month_of (v : Val) : Val :=
  match v with VTime t => VPeriod (to_period (ts_date t)) | _ => NaN end.

Definition as_date (v : Val) : Date :=
  match v with VDate d => d | _ => mkDate 1 1 1 end.

Definition as_string (v : Val) : string :=
  match v with VStr s => s | _ => "NaN" end.

Definition as_int (v : Val) : Z :=
  match v with VInt n => n | _ => 0%Z end.

(** [period.end_time.date() + timedelta(days=n)] *)
Definition due (terms : nat) (v : Val) : Val :=
  match v with VPeriod p => VDate (add_days (month_end p) terms) | _ => NaN end.

(** [impressions_df[impressions_df['impression_outcome'] == 'won'].copy()] *)
Definition won_copy (impressions_df : ref) : M ref :=
  mask <- new1 (select (has_value "impression_outcome" "won")) impressions_df ;;
  copy mask.

(** [left.join(campaigns_df.set_index('campaign_id')[cols])] *)
Definition join_campaign_columns (cols : list string) (left campaigns_df : ref) : M ref :=
  indexed <- new1 (set_index "campaign_id") campaigns_df ;;
  picked <- new1 (project cols) indexed ;;
  new2 join_left left picked.

(** *** The programs *)

Definition calculate_basic_metrics
    (impressions_df clicks_df conversions_df campaigns_df : ref) : M ref :=
  won_impressions <- won_copy impressions_df ;;
  g <- new1 (groupby_agg ["campaign_id"]
               [("win_price_sum", ("win_price", Sum));
                ("win_price_mean", ("win_price", Mean));
                ("win_price_count", ("win_price", Count));
                ("timestamp_min", ("timestamp", Min));
                ("timestamp_max", ("timestamp", Max))]) won_impressions ;;
  impression_metrics <- new1 (round_frame 2) g ;;
  inplace (rename_columns ["total_spend_raw"; "avg_cpm"; "impressions_served";
                           "first_impression"; "last_impression"]) impression_metrics ;;
  inplace (assign "spend" (fun _ r =>
             vround 2 (vdiv (vmul (cell "total_spend_raw" r)
                                  (cell "impressions_served" r)) (VNum 1000))))
          impression_metrics ;;
  inplace (assign "ecpm" (fun _ r =>
             vround 2 (vdiv (cell "spend" r)
                            (vdiv (cell "impressions_served" r) (VNum 1000)))))
          impression_metrics ;;
  g <- new1 (groupby_agg ["campaign_id"]
               [("click_id", ("click_id", Count));
                ("click_cost", ("click_cost", Sum))]) clicks_df ;;
  click_metrics <- new1 (round_frame 2) g ;;
  inplace (rename_columns ["clicks"; "click_spend"]) click_metrics ;;
  g <- new1 (groupby_agg ["campaign_id"]
               [("conversion_id", ("conversion_id", Count));
                ("conversion_value", ("conversion_value", Sum))]) conversions_df ;;
  conversion_metrics <- new1 (round_frame 2) g ;;
  inplace (rename_columns ["conversions"; "conversion_value"]) conversion_metrics ;;
  j <- new2 join_left impression_metrics click_metrics ;;
  metrics_df <- new1 fillna0 j ;;
  j <- new2 join_left metrics_df conversion_metrics ;;
  metrics_df <- new1 fillna0 j ;;
  inplace (assign "ctr" (fun _ r =>
             vround 3 (vmul (vdiv (cell "clicks" r) (cell "impressions_served" r))
                            (VNum 100)))) metrics_df ;;
  inplace (assign "cpc" (fun _ r =>
             vround 2 (where_positive (cell "clicks" r)
                         (vdiv (cell "spend" r) (cell "clicks" r))))) metrics_df ;;
  inplace (assign "cpa" (fun _ r =>
             vround 2 (where_positive (cell "conversions" r)
                         (vdiv (cell "spend" r) (cell "conversions" r))))) metrics_df ;;
  inplace (assign "roas" (fun _ r =>
             vround 2 (where_positive (cell "spend" r)
                         (vdiv (cell "conversion_value" r) (cell "spend" r)))))
          metrics_df ;;
  inplace (assign "conversion_rate" (fun _ r =>
             vround 3 (where_positive (cell "clicks" r)
                         (vmul (vdiv (cell "conversions" r) (cell "clicks" r))
                               (VNum 100))))) metrics_df ;;
  metrics_df <- join_campaign_columns
                  ["campaign_name"; "advertiser_id"; "budget_total"; "budget_daily";
                   "objective"; "status"] metrics_df campaigns_df ;;
  new1 reset_index metrics_df.

(** [won.groupby(key)['spend'].sum().reset_index()], then the two
    in-place statements that rename and tag it. *)
Definition channel_revenue (key channel_type : string) (df : ref) : M ref :=
  g <- new1 (groupby_agg [key] [("spend", ("spend", Sum))]) df ;;
  revenue <- new1 reset_index g ;;
  inplace (rename_columns ["channel"; "revenue"]) revenue ;;
  inplace (assign "channel_type" (fun _ _ => VStr channel_type)) revenue ;;
  ret revenue.

Definition calculate_revenue_by_channel
    (impressions_df campaigns_df advertisers_df : ref) : M ref :=
  won_impressions <- won_copy impressions_df ;;
  inplace (assign "spend" (fun _ r =>
             vround 2 (vdiv (vmul (cell "win_price" r) (VNum 1)) (VNum 1000))))
          won_impressions ;;
  device_revenue <- channel_revenue "device_type" "device" won_impressions ;;
  auction_revenue <- channel_revenue "auction_type" "auction" won_impressions ;;
  geo_revenue <- channel_revenue "geo_country" "geo" won_impressions ;;
  picked <- new1 (project ["campaign_id"; "advertiser_id"]) campaigns_df ;;
  impression_with_industry <- new2 (merge "campaign_id") won_impressions picked ;;
  picked <- new1 (project ["advertiser_id"; "industry"]) advertisers_df ;;
  impression_with_industry <-
    new2 (merge "advertiser_id") impression_with_industry picked ;;
  industry_revenue <- channel_revenue "industry" "industry" impression_with_industry ;;
  new_of concat [device_revenue; auction_revenue; geo_revenue; industry_revenue].

Definition calculate_margin_analysis (e : Env) (impressions_df campaigns_df : ref)
  : M ref :=
  won_impressions <- won_copy impressions_df ;;
  n <- len won_impressions ;;
  inplace (assign "buy_side_cost" (fun i r =>
             vround 2 (vmul (cell "win_price" r)
                            (VNum (nth i (random_uniform e 0 n (7 # 10) (8 # 10)) 0)))))
          won_impressions ;;
  inplace (assign "sell_side_revenue" (fun _ r => cell "win_price" r)) won_impressions ;;
  inplace (assign "margin" (fun _ r =>
             vround 2 (vsub (cell "sell_side_revenue" r) (cell "buy_side_cost" r))))
          won_impressions ;;
  inplace (assign "margin_pct" (fun _ r =>
             vround 2 (vmul (vdiv (cell "margin" r) (cell "sell_side_revenue" r))
                            (VNum 100)))) won_impressions ;;
  g <- new1 (groupby_agg ["campaign_id"]
               [("buy_side_cost", ("buy_side_cost", Sum));
                ("sell_side_revenue", ("sell_side_revenue", Sum));
                ("margin", ("margin", Sum));
                ("margin_pct", ("margin_pct", Mean));
                ("timestamp", ("timestamp", Count))]) won_impressions ;;
  margin_by_campaign <- new1 (round_frame 2) g ;;
  inplace (rename_columns ["total_buy_cost"; "total_sell_revenue"; "total_margin";
                           "avg_margin_pct"; "impressions"]) margin_by_campaign ;;
  inplace (assign "margin_per_impression" (fun _ r =>
             vround 4 (vdiv (cell "total_margin" r) (cell "impressions" r))))
          margin_by_campaign ;;
  margin_by_campaign <- join_campaign_columns
                          ["campaign_name"; "advertiser_id"; "objective"]
                          margin_by_campaign campaigns_df ;;
  new1 reset_index margin_by_campaign.

(** The dict appended to [pacing_data] for one campaign. *)
Definition pacing_dict (campaign : Row) (daily_spend : DataFrame) : Row :=
  let total_spend := Qsum (map (fun r => num (cell "spend" r)) (rows daily_spend)) in
  let campaign_days :=
    (days_between (as_date (cell "end_date" campaign))
                  (as_date (cell "start_date" campaign)) + 1)%Z in
  let days_elapsed := length (rows daily_spend) in
  let b := budget_spent_pct total_spend (num (cell "budget_total" campaign)) in
  let t := time_elapsed_pct days_elapsed campaign_days in
  let avg_daily_spend :=
    if (0 <? days_elapsed)%nat then total_spend / Qof_nat days_elapsed else 0 in
  let forecasted_spend := avg_daily_spend * inject_Z campaign_days in
  [ ("campaign_id", cell "campaign_id" campaign);
    ("campaign_name", cell "campaign_name" campaign);
    ("budget_total", cell "budget_total" campaign);
    ("budget_daily", cell "budget_daily" campaign);
    ("total_spend", VNum (round2 total_spend));
    ("avg_daily_spend", VNum (round2 avg_daily_spend));
    ("forecasted_spend", VNum (round2 forecasted_spend));
    ("budget_spent_pct", VNum (round_dp 1 b));
    ("time_elapsed_pct", VNum (round_dp 1 t));
    ("pacing_status", VStr (pacing_status b t));
    ("days_active", VInt (Z.of_nat days_elapsed));
    ("total_days", VInt campaign_days) ].

Definition pacing_columns : list string :=
  ["campaign_id"; "campaign_name"; "budget_total"; "budget_daily"; "total_spend";
   "avg_daily_spend"; "forecasted_spend"; "budget_spent_pct"; "time_elapsed_pct";
   "pacing_status"; "days_active"; "total_days"].

Definition calculate_pacing_analysis (impressions_df campaigns_df : ref) : M ref :=
  won_impressions <- won_copy impressions_df ;;
  inplace (assign "spend" (fun _ r => vround 2 (vdiv (cell "win_price" r) (VNum 1000))))
          won_impressions ;;
  inplace (assign "date" (fun _ r => date_of (cell "timestamp" r))) won_impressions ;;
  campaigns <- load campaigns_df ;;
  pacing_data <-
    for_each (rows campaigns)
      (fun pacing_data campaign =>
         campaign_impressions <- new1 (select (same "campaign_id" campaign))
                                      won_impressions ;;
         n <- len campaign_impressions ;;
         if (n =? 0)%nat then ret pacing_data
         else
           g <- new1 (groupby_agg ["date"] [("spend", ("spend", Sum))])
                     campaign_impressions ;;
           daily_spend <- load g ;;
           ret (pacing_data ++ [pacing_dict campaign daily_spend]))
      [] ;;
  alloc (mkDF [] pacing_columns pacing_data).

(** The aging and payment columns, added in place to [receivables] and
    to [payables] alike. *)
Definition aging_and_status (e : Env) (pos : nat) (terms : nat) (p_paid : Q)
    (amount : string) (table : ref) : M unit :=
  inplace (assign "due_date" (fun _ r => due terms (cell "month_year" r))) table ;;
  inplace (assign "days_outstanding" (fun _ r =>
             VInt (days_between (today e) (as_date (cell "due_date" r))))) table ;;
  inplace (assign "aging_category" (fun _ r =>
             VStr (aging_category (as_int (cell "days_outstanding" r))))) table ;;
  n <- len table ;;
  inplace (assign "payment_status" (fun i _ =>
             VStr (nth i (random_payment_status e pos n p_paid) "NaN"))) table ;;
  inplace (assign "outstanding_amount" (fun _ r =>
             vround 2 (if has_value "payment_status" "outstanding" r
                       then cell amount r else VInt 0))) table.

Definition calculate_cash_flow_analysis (e : Env)
    (impressions_df campaigns_df advertisers_df : ref) : M (option (ref * ref)) :=
  won_impressions <- won_copy impressions_df ;;
  inplace (assign "spend" (fun _ r => vround 2 (vdiv (cell "win_price" r) (VNum 1000))))
          won_impressions ;;
  inplace (assign "month_year" (fun _ r => month_of (cell "timestamp" r)))
          won_impressions ;;
  picked <- new1 (project ["campaign_id"; "advertiser_id"]) campaigns_df ;;
  impression_with_advertiser <- new2 (merge "campaign_id") won_impressions picked ;;
  g <- new1 (groupby_agg ["advertiser_id"; "month_year"] [("spend", ("spend", Sum))])
            impression_with_advertiser ;;
  receivables <- new1 reset_index g ;;
  picked <- new1 (project ["advertiser_id"; "advertiser_name"]) advertisers_df ;;
  receivables <- new2 (merge "advertiser_id") receivables picked ;;
  aging_and_status e 0 45 (9 # 10) "spend" receivables ;;
  n_receivables <- len receivables ;;
  won <- load won_impressions ;;
  match publisher_names (map as_string (column_unique "publisher_id" won)) with
  | None => ret None
  | Some names =>
      let n := length (rows won) in
      inplace (assign "publisher_payout" (fun i r =>
                 vround 2 (vmul (cell "spend" r)
                             (VNum (nth i (random_uniform e n_receivables n
                                             (7 # 10) (8 # 10)) 0)))))
              won_impressions ;;
      g <- new1 (groupby_agg ["publisher_id"; "month_year"]
                   [("publisher_payout", ("publisher_payout", Sum))]) won_impressions ;;
      payables <- new1 reset_index g ;;
      inplace (assign "publisher_name" (fun _ r =>
                 VStr (lookup_name names (as_string (cell "publisher_id" r)))))
              payables ;;
      aging_and_status e (n_receivables + n) 30 (95 # 100) "publisher_payout" payables ;;
      ret (Some (receivables, payables))
  end.

End Store.

(** ** The typed tables as objects in the store *)

Module Encode.
Import Frame.

Definition impression (i : Impression.t) : Row :=
  [ ("timestamp", VTime (Impression.timestamp i));
    ("campaign_id", VStr (Impression.campaign_id i));
    ("publisher_id", VStr (Impression.publisher_id i));
    ("device_type", VStr (Impression.device_type i));
    ("geo_country", VStr (Impression.geo_country i));
    ("auction_type", VStr (Impression.auction_type i));
    ("bid_price", VNum (Impression.bid_price i));
    ("win_price", VNum (Impression.win_price i));
    ("impression_outcome", VStr (Impression.impression_outcome i)) ].

Definition click (c : Click.t) : Row :=
  [ ("click_id", VStr (Click.click_id c));
    ("timestamp", VTime (Click.timestamp c));
    ("campaign_id", VStr (Click.campaign_id c));
    ("click_cost", VNum (Click.click_cost c)) ].

Definition conversion (c : Conversion.t) : Row :=
  [ ("conversion_id", VStr (Conversion.conversion_id c));
    ("timestamp", VTime (Conversion.timestamp c));
    ("campaign_id", VStr (Conversion.campaign_id c));
    ("conversion_value", VNum (Conversion.conversion_value c)) ].

Definition campaign (c : Campaign.t) : Row :=
  [ ("campaign_id", VStr (Campaign.campaign_id c));
    ("campaign_name", VStr (Campaign.campaign_name c));
    ("advertiser_id", VStr (Campaign.advertiser_id c));
    ("start_date", VDate (Campaign.start_date c));
    ("end_date", VDate (Campaign.end_date c));
    ("budget_total", VNum (Campaign.budget_total c));
    ("budget_daily", VNum (Campaign.budget_daily c));
    ("objective", VStr (Campaign.objective c));
    ("status", VStr (Campaign.status c)) ].

Definition advertiser (a : Advertiser.t) : Row :=
  [ ("advertiser_id", VStr (Advertiser.advertiser_id a));
    ("advertiser_name", VStr (Advertiser.advertiser_name a));
    ("industry", VStr (Advertiser.industry a)) ].

(** A table as a DataFrame with the default index; the column names
    are those of the first row's encoding. *)
Definition table {A : Type} (names : list string) (enc : A -> Row) (l : list A)
  : DataFrame :=
  mkDF [] names (map enc l).

Definition impression_columns : list string :=
  ["timestamp"; "campaign_id"; "publisher_id"; "device_type"; "geo_country";
   "auction_type"; "bid_price"; "win_price"; "impression_outcome"].
Definition click_columns : list string :=
  ["click_id"; "timestamp"; "campaign_id"; "click_cost"].
Definition conversion_columns : list string :=
  ["conversion_id"; "timestamp"; "campaign_id"; "conversion_value"].
Definition campaign_columns : list string :=
  ["campaign_id"; "campaign_name"; "advertiser_id"; "start_date"; "end_date";
   "budget_total"; "budget_daily"; "objective"; "status"].
Definition advertiser_columns : list string :=
  ["advertiser_id"; "advertiser_name"; "industry"].

(** The store a caller holds: the five tables at references 0 to 4. *)
Definition heap (t : Tables) : Store.Heap :=
  [ table impression_columns impression (impressions t);
    table click_columns click (clicks t);
    table conversion_columns conversion (conversions t);
    table campaign_columns campaign (campaigns t);
    table advertiser_columns advertiser (advertisers t) ].

(** [df[col]] as a list of cells. *)
Definition column (col : string) (df : DataFrame) : list Val :=
  map (cell col) (rows df).

(** The object a program returned, in the store it left. *)
Definition result (out : Store.ref * Store.Heap) : DataFrame :=
  nth (fst out) (snd out) Frame.empty.

End Encode.

(** One call of an aggregation function on the references it is
    passed; the value is the list of objects it returns. *)
Record Args := mkArgs {
  impressions_df : Store.ref;
  clicks_df : Store.ref;
  conversions_df : Store.ref;
  campaigns_df : Store.ref;
  advertisers_df : Store.ref
}.

Definition call (f : Aggregation) (e : Env) (a : Args) : Store.M (list Store.ref) :=
  match f with
  | BasicMetrics =>
      Store.bind (Store.calculate_basic_metrics (impressions_df a) (clicks_df a)
                    (conversions_df a) (campaigns_df a))
                 (fun r => Store.ret [r])
  | RevenueByChannel =>
      Store.bind (Store.calculate_revenue_by_channel (impressions_df a) (campaigns_df a)
                    (advertisers_df a))
                 (fun r => Store.ret [r])
  | MarginAnalysis =>
      Store.bind (Store.calculate_margin_analysis e (impressions_df a) (campaigns_df a))
                 (fun r => Store.ret [r])
  | PacingAnalysis =>
      Store.bind (Store.calculate_pacing_analysis (impressions_df a) (campaigns_df a))
                 (fun r => Store.ret [r])
  | CashFlowAnalysis =>
      Store.bind (Store.calculate_cash_flow_analysis e (impressions_df a)
                    (campaigns_df a) (advertisers_df a))
                 (fun r => Store.ret (match r with
                                      | Some (receivables, payables) =>
                                          [receivables; payables]
                                      | None => []
                                      end))
  end.

(* ===================================================================== *)
(** * The rest of the engine and its caller *)
(* ===================================================================== *)

(** ** [prepare_time_series_data] *)

Module Daily.
Record t := mk {
  date : Date;
  impressions : nat;
  spend : Q;
  avg_cpm : Q;
  clicks : nat;
  click_cost : Q;
  conversions : nat;
  conversion_value : Q;
  ctr : Q;
  cpc : Q;
  cpa : Q
}.
End Daily.

(** [left.join(right, how='left').fillna(0)] for one left row, for
    any kind of index label. *)
Definition lookup_fillna0 {K : Type} `{KeyOrder K} (k : K)
    (right : list (K * (nat * Q))) : nat * Q :=
  match index_lookup k right with
  | Some v => v
  | None => (0%nat, 0)
  end.

(** [clicks_df.groupby(clicks_df['timestamp'].dt.date).agg({'click_id':
    'count', 'click_cost': 'sum'}).round(2)] *)
Definition daily_clicks (clicks_df : list Click.t) : list (Date * (nat * Q)) :=
  map (fun kg => (fst kg, (length (snd kg), round2 (Qsum (map Click.click_cost (snd kg))))))
      (groupby (fun c => ts_date (Click.timestamp c)) clicks_df).

Definition daily_conversions (conversions_df : list Conversion.t)
  : list (Date * (nat * Q)) :=
  map (fun kg => (fst kg, (length (snd kg),
                           round2 (Qsum (map Conversion.conversion_value (snd kg))))))
      (groupby (fun c => ts_date (Conversion.timestamp c)) conversions_df).

(** One day of [daily_data]: the aggregate of the day's won
    impressions, joined with the day's clicks and conversions. *)
Definition daily_row (d : Date) (g : list Impression.t) (cl cv : nat * Q) : Daily.t :=
  let impressions := length g in
  let spend := round2 (Qsum (map spend_per_impression g)) in
  Daily.mk d impressions spend
    (round2 (Qmean (map Impression.win_price g)))
    (fst cl) (snd cl) (fst cv) (snd cv)
    (round3 (Qof_nat (fst cl) / Qof_nat impressions * 100))
    (round2 (if (0 <? fst cl)%nat then spend / Qof_nat (fst cl) else 0))
    (round2 (if (0 <? fst cv)%nat then spend / Qof_nat (fst cv) else 0)).

Definition prepare_time_series_data
    (impressions_df : list Impression.t) (clicks_df : list Click.t)
    (conversions_df : list Conversion.t) : list Daily.t :=
  let won_impressions := won_of impressions_df in
  let dc := daily_clicks clicks_df in
  let dv := daily_conversions conversions_df in
  map (fun kg => daily_row (fst kg) (snd kg)
                   (lookup_fillna0 (fst kg) dc) (lookup_fillna0 (fst kg) dv))
      (groupby impression_date won_impressions).

(** ** The dashboard's filters ([app.py]) *)

(** What the sidebar hands over: a date range and three multi-selects,
    each of which may contain the entry 'All'. *)
Record Filters := mkFilters {
  start_date : Date;
  end_date : Date;
  selected_devices : list string;
  selected_advertisers : list string;
  selected_status : list string
}.

(** [x in values], [Series.isin(values)] *)
Definition isin (x : string) (values : list string) : bool :=
  existsb (String.eqb x) values.

(** The rows are filtered unless 'All' is among the selected entries. *)
Definition filter_unless_all {A : Type} (selected : list string) (p : A -> bool)
    (df : list A) : list A :=
  if isin "All" selected then df else filter p df.

Definition filtered_campaigns (f : Filters) (t : Tables) : list Campaign.t :=
  let advertiser_ids :=
    map Advertiser.advertiser_id
        (filter (fun a => isin (Advertiser.advertiser_name a) (selected_advertisers f))
                (advertisers t)) in
  let by_advertiser :=
    filter_unless_all (selected_advertisers f)
      (fun c => isin (Campaign.advertiser_id c) advertiser_ids) (campaigns t) in
  filter_unless_all (selected_status f)
    (fun c => isin (Campaign.status c) (selected_status f)) by_advertiser.

(** [filtered_campaigns['campaign_id'].unique()] *)
Definition campaign_ids (f : Filters) (t : Tables) : list string :=
  unique (map Campaign.campaign_id (filtered_campaigns f t)).

Definition filtered_impressions (f : Filters) (t : Tables) : list Impression.t :=
  let in_range :=
    filter (fun i => date_leb (start_date f) (impression_date i)
                     && date_leb (impression_date i) (end_date f))
           (impressions t) in
  let by_device :=
    filter_unless_all (selected_devices f)
      (fun i => isin (Impression.device_type i) (selected_devices f)) in_range in
  filter (fun i => isin (Impression.campaign_id i) (campaign_ids f t)) by_device.

Definition filtered_clicks (f : Filters) (t : Tables) : list Click.t :=
  filter (fun c => isin (Click.campaign_id c) (campaign_ids f t)) (clicks t).

Definition filtered_conversions (f : Filters) (t : Tables) : list Conversion.t :=
  filter (fun c => isin (Conversion.campaign_id c) (campaign_ids f t)) (conversions t).

(** The tables the pages pass to the engine; the advertiser table is
    passed unfiltered. *)
Definition apply_filters (f : Filters) (t : Tables) : Tables :=
  mkTables (filtered_impressions f t) (filtered_clicks f t) (filtered_conversions f t)
           (filtered_campaigns f t) (advertisers t).

(** The 'Campaigns On Pace' tile of the margin and pacing page.  When
    the pacing loop appended nothing, [calculate_pacing_analysis]
    returns [pd.DataFrame([])], a frame without columns, and
    [pacing_data['pacing_status']] raises KeyError (here: [None]). *)
Definition pacing_health (pacing_data : list Pacing.t) : option (nat * nat * Q) :=
  match pacing_data with
  | [] => None
  | _ :: _ =>
      let on_pace_campaigns :=
        length (filter (fun r => String.eqb (Pacing.pacing_status r) "on_pace")
                       pacing_data) in
      let total_campaigns := length pacing_data in
      Some (on_pace_campaigns, total_campaigns,
            if (0 <? total_campaigns)%nat
            then Qof_nat on_pace_campaigns / Qof_nat total_campaigns * 100 else 0)
  end.

(** ** Identifiers of the generator ([data_generator.py]) *)

(** [str(n)] for a natural number. *)
Definition decimal (n : nat) : string :=
  NilZero.string_of_uint (Nat.to_uint n).

(** [f"{n:0{width}d}"]: decimal digits, zero-padded on the left. *)
Definition zero_padded (width n : nat) : string :=
  let digits := decimal n in
  string_of_list_ascii (repeat "0"%char (width - String.length digits)) ++ digits.

(** [f'PUB_{i:04d}'], [f'ADV_{i+1:04d}'], [f'CAMP_{i+1:06d}'] *)
Definition publisher_id_of (i : nat) : string := "PUB_" ++ zero_padded 4 i.
Definition advertiser_id_of (i : nat) : string := "ADV_" ++ zero_padded 4 (i + 1).
Definition campaign_id_of (i : nat) : string := "CAMP_" ++ zero_padded 6 (i + 1).

(** [publishers = [f'PUB_{i:04d}' for i in range(1, 26)]] *)
Definition publishers : list string := map publisher_id_of (seq 1 25).

(** The budget of a generated campaign, from its dates and the two
    uniform draws. *)
Definition campaign_budget (start_date end_date : Date) (daily_budget variance : Q)
  : Q * Q :=
  let duration_days := days_between end_date start_date in
  let total_budget := daily_budget * inject_Z duration_days * variance in
  (round2 total_budget, round2 daily_budget).

(** ** Number formatting ([format_currency], [format_percentage],
    [format_number]) *)

(** The digits of an integer part with a comma before every group of
    three, as the [,] format option writes them; [rev_digits] holds
    the digits from the least significant one. *)
Fixpoint commas (rev_digits : list ascii) (count : nat) : list ascii :=
  match rev_digits with
  | [] => []
  | c :: r =>
      if (count =? 3)%nat then ","%char :: c :: commas r 1
      else c :: commas r (S count)
  end.

Definition group_thousands (digits : string) : string :=
  string_of_list_ascii (rev (commas (rev (list_ascii_of_string digits)) 0)).

(** [f"{x:,.<d>f}"] (with [grouping]) or [f"{x:.<d>f}"]: the value
    rounded half to even at [d] decimals, a minus sign for a negative
    value, and the fraction zero-padded to [d] digits. *)
Definition format_fixed (grouping : bool) (d : nat) (x : Q) : string :=
  let scaled := round_half_even (Qabs x * inject_Z (pow10 d)) in
  let whole := decimal (Z.to_nat (scaled / pow10 d)) in
  let fraction := zero_padded d (Z.to_nat (scaled mod pow10 d)) in
  ((if Qltb x 0 then "-" else "")
   ++ (if grouping then group_thousands whole else whole)
   ++ (if (d =? 0)%nat then "" else "." ++ fraction))%string.

(** [f"${value:,.2f}"] *)
Definition format_currency (value : Q) : string :=
  ("$" ++ format_fixed true 2 value)%string.

(** [f"{value:.2f}%"] *)
Definition format_percentage (value : Q) : string :=
  (format_fixed false 2 value ++ "%")%string.

Definition format_number (value : Q) : string :=
  if Qle_bool 1000000 value
  then (format_fixed false 1 (value / 1000000) ++ "M")%string
  else if Qle_bool 1000 value
  then (format_fixed false 1 (value / 1000) ++ "K")%string
  else format_fixed true 0 value.

(* ===================================================================== *)
(** * Properties *)
(* ===================================================================== *)

(** ** Rounding *)

Lemma round_half_even_proper (x y : Q) :
  x == y -> round_half_even x = round_half_even y.
Proof.
  intros E. unfold round_half_even.
  rewrite (Qfloor_comp _ _ E).
  assert (E' : x - inject_Z (Qfloor y) == y - inject_Z (Qfloor y)) by (rewrite E; reflexivity).
  rewrite (Qcompare_comp _ _ E' (1 # 2) (1 # 2) (Qeq_refl _)).
  reflexivity.
Qed.

Lemma round_half_even_Z (z : Z) : round_half_even (inject_Z z) = z.
Proof.
  unfold round_half_even. rewrite Qfloor_Z.
  assert (L : forall q, Qcompare (q - q) (1 # 2) = Lt)
    by (intros q; apply (proj1 (Qlt_alt _ _)); lra).
  rewrite L. reflexivity.
Qed.

(** The nearest integer is at most one half away. *)
Lemma round_half_even_near (x : Q) :
  - (1 # 2) <= inject_Z (round_half_even x) - x <= 1 # 2.
Proof.
  unfold round_half_even; cbv zeta.
  pose proof (Qfloor_le x) as Hlo. pose proof (Qlt_floor x) as Hhi.
  rewrite inject_Z_plus in Hhi. change (inject_Z 1) with 1 in Hhi.
  destruct (Qcompare_spec (x - inject_Z (Qfloor x)) (1 # 2)) as [E | L | G].
  - destruct (Z.even (Qfloor x));
      [| rewrite inject_Z_plus; change (inject_Z 1) with 1]; lra.
  - lra.
  - rewrite inject_Z_plus. change (inject_Z 1) with 1. lra.
Qed.

Lemma pow10_pos (d : nat) : (0 < pow10 d)%Z.
Proof. unfold pow10. apply Z.pow_pos_nonneg; lia. Qed.

Lemma inject_pow10_pos (d : nat) : 0 < inject_Z (pow10 d).
Proof.
  pose proof (pow10_pos d). unfold Qlt; simpl. lia.
Qed.

Lemma round_dp_proper (d : nat) (x y : Q) : x == y -> round_dp d x = round_dp d y.
Proof.
  intros E. unfold round_dp.
  rewrite (round_half_even_proper (x * inject_Z (pow10 d)) (y * inject_Z (pow10 d)));
    [reflexivity | rewrite E; reflexivity].
Qed.

(** As a number, [round_dp d x] is the rounded scaled value, scaled back. *)
Lemma round_dp_value (d : nat) (x : Q) :
  round_dp d x == inject_Z (round_half_even (x * inject_Z (pow10 d))) / inject_Z (pow10 d).
Proof. unfold round_dp. apply Qred_correct. Qed.

(** A number with at most [d] decimals is a fixed point of [round(d)]. *)
Definition decimals (d : nat) (x : Q) : Prop :=
  exists z : Z, x == inject_Z z / inject_Z (pow10 d).

Lemma round_dp_decimals (d : nat) (x : Q) : decimals d (round_dp d x).
Proof. eexists. apply round_dp_value. Qed.

Lemma round_dp_exact (d : nat) (x : Q) : decimals d x -> round_dp d x == x.
Proof.
  intros [z Hz]. rewrite round_dp_value.
  pose proof (inject_pow10_pos d) as P.
  rewrite (round_half_even_proper (x * inject_Z (pow10 d)) (inject_Z z)).
  - rewrite round_half_even_Z. symmetry. exact Hz.
  - rewrite Hz. field. lra.
Qed.




Lemma decimals_plus (d : nat) (x y : Q) :
  decimals d x -> decimals d y -> decimals d (x + y).
Proof.
  intros [a Ha] [b Hb]. exists (a + b)%Z.
  pose proof (inject_pow10_pos d).
  rewrite Ha, Hb, inject_Z_plus. field. lra.
Qed.

Lemma decimals_Qsum (d : nat) (l : list Q) :
  Forall (decimals d) l -> decimals d (Qsum l).
Proof.
  induction 1 as [| x l Hx _ IH]; simpl.
  - exists 0%Z. pose proof (inject_pow10_pos d). field. lra.
  - apply decimals_plus; assumption.
Qed.

(** ** Grouping *)

Section GroupByFacts.
Context {K : Type} `{KeyOrder K}.

Lemma key_eqb_refl (k : K) : key_eqb k k = true.
Proof. apply key_eqb_eq. reflexivity. Qed.

Lemma key_eqb_neq (a b : K) : key_eqb a b = false <-> a <> b.
Proof.
  split.
  - intros E ->. rewrite key_eqb_refl in E. discriminate.
  - intros N. destruct (key_eqb a b) eqn:E; [| reflexivity].
    apply (proj1 (key_eqb_eq _ _)) in E. contradiction.
Qed.

Lemma unique_In (l : list K) (k : K) : In k (unique l) <-> In k l.
Proof.
  induction l as [| a l IH]; simpl; [tauto |].
  rewrite filter_In, IH, negb_true_iff, key_eqb_neq.
  split.
  - intros [-> | [Hin _]]; auto.
  - intros [-> | Hin]; auto.
    destruct (key_eqb k a) eqn:E.
    + apply (proj1 (key_eqb_eq _ _)) in E. auto.
    + apply (proj1 (key_eqb_neq _ _)) in E. auto.
Qed.

Lemma unique_NoDup (l : list K) : NoDup (unique l).
Proof.
  induction l as [| a l IH]; simpl; constructor.
  - rewrite filter_In, negb_true_iff, key_eqb_neq. intros [_ N]. congruence.
  - apply NoDup_filter. exact IH.
Qed.

Lemma insert_sorted_perm (k : K) (l : list K) :
  Permutation (k :: l) (insert_sorted k l).
Proof.
  induction l as [| a l IH]; simpl; [reflexivity |].
  destruct (key_leb k a); [reflexivity |].
  rewrite perm_swap. constructor. exact IH.
Qed.

Lemma sort_keys_perm (l : list K) : Permutation l (sort_keys l).
Proof.
  induction l as [| a l IH]; simpl; [reflexivity |].
  rewrite <- insert_sorted_perm. constructor. exact IH.
Qed.

Lemma group_keys_In (l : list K) (k : K) : In k (group_keys l) <-> In k l.
Proof.
  unfold group_keys. split; intros Hin.
  - apply unique_In.
    exact (Permutation_in _ (Permutation_sym (sort_keys_perm _)) Hin).
  - apply (Permutation_in _ (sort_keys_perm _)), unique_In, Hin.
Qed.

Lemma group_keys_NoDup (l : list K) : NoDup (group_keys l).
Proof.
  unfold group_keys.
  apply (Permutation_NoDup (sort_keys_perm (unique l))), unique_NoDup.
Qed.

Context {A : Type}.
Variable key : A -> K.

Lemma rows_with_In (k : K) (df : list A) (r : A) :
  In r (rows_with key k df) <-> In r df /\ key r = k.
Proof. unfold rows_with. rewrite filter_In, key_eqb_eq. reflexivity. Qed.

(** A label has rows exactly when it occurs in the key column. *)
Lemma rows_with_nonempty (k : K) (df : list A) :
  rows_with key k df <> [] <-> In k (map key df).
Proof.
  rewrite in_map_iff. split.
  - destruct (rows_with key k df) as [| r g] eqn:E; [congruence |].
    intros _. exists r.
    assert (Hr : In r (rows_with key k df)) by (rewrite E; left; reflexivity).
    apply (proj1 (rows_with_In _ _ _)) in Hr. tauto.
  - intros [r [Hk Hin]] E.
    assert (Hr : In r (rows_with key k df)) by (apply rows_with_In; auto).
    rewrite E in Hr. exact Hr.
Qed.

Lemma groupby_In (df : list A) (k : K) (g : list A) :
  In (k, g) (groupby key df) <-> In k (map key df) /\ g = rows_with key k df.
Proof.
  unfold groupby. rewrite in_map_iff. split.
  - intros [k' [E Hin]]. injection E as -> <-.
    apply (proj1 (group_keys_In _ _)) in Hin. split; [exact Hin | reflexivity].
  - intros [Hin ->]. exists k. split; [reflexivity |].
    apply group_keys_In. exact Hin.
Qed.

Lemma groupby_keys (df : list A) :
  map fst (groupby key df) = group_keys (map key df).
Proof. unfold groupby. rewrite map_map. simpl. apply map_id. Qed.

(** Every group of a [groupby] has at least one row. *)
Lemma groupby_group_nonempty (df : list A) (k : K) (g : list A) :
  In (k, g) (groupby key df) -> g <> [].
Proof.
  intros Hin. apply (proj1 (groupby_In _ _ _)) in Hin as [Hk ->].
  apply rows_with_nonempty. exact Hk.
Qed.

(** Looking a label up in an aggregated table. *)
Lemma index_lookup_agg {V : Type} (f : list A -> V) (df : list A) (k : K) :
  index_lookup k (map (fun kg => (fst kg, f (snd kg))) (groupby key df))
  = if existsb (fun x => key_eqb x k) (map key df)
    then Some (f (rows_with key k df)) else None.
Proof.
  unfold index_lookup, groupby. rewrite map_map. simpl.
  assert (Hks : forall x, In x (group_keys (map key df)) <-> In x (map key df))
    by (intros; apply group_keys_In).
  revert Hks. generalize (group_keys (map key df)) as ks.
  intros ks Hks.
  destruct (existsb (fun x => key_eqb x k) (map key df)) eqn:Ex.
  - apply existsb_exists in Ex as [x [Hx Exk]].
    apply (proj1 (key_eqb_eq _ _)) in Exk. subst x.
    apply (proj2 (Hks _)) in Hx. clear Hks.
    induction ks as [| a ks IH]; simpl in *; [contradiction |].
    destruct (key_eqb a k) eqn:E.
    + apply (proj1 (key_eqb_eq _ _)) in E. subst. reflexivity.
    + destruct Hx as [-> | Hx]; [rewrite key_eqb_refl in E; discriminate |].
      apply IH. exact Hx.
  - assert (Hn : ~ In k ks).
    { intros Hin. apply (proj1 (Hks _)) in Hin.
      assert (Et : existsb (fun x => key_eqb x k) (map key df) = true)
        by (apply existsb_exists; exists k; split; [exact Hin | apply key_eqb_refl]).
      congruence. }
    clear Hks Ex.
    induction ks as [| a ks IH]; simpl in *; [reflexivity |].
    destruct (key_eqb a k) eqn:E.
    + apply (proj1 (key_eqb_eq _ _)) in E. subst. tauto.
    + apply IH. tauto.
Qed.

(** *** The groups partition the rows *)

Variable f : A -> Q.

Lemma indicator_sum (ks : list K) (k : K) (v : Q) :
  NoDup ks -> In k ks ->
  Qsum (map (fun x => if key_eqb k x then v else 0) ks) == v.
Proof.
  induction 1 as [| a ks Hna Hnd IH]; simpl; [contradiction |].
  intros [-> | Hin].
  - rewrite key_eqb_refl.
    assert (Z0 : Qsum (map (fun x => if key_eqb k x then v else 0) ks) == 0).
    { clear IH Hnd. induction ks as [| b ks IHks]; simpl; [reflexivity |].
      destruct (key_eqb k b) eqn:E.
      - apply (proj1 (key_eqb_eq _ _)) in E. subst. simpl in Hna. tauto.
      - rewrite IHks; [lra |]. simpl in Hna. tauto. }
    rewrite Z0. lra.
  - destruct (key_eqb k a) eqn:E.
    + apply (proj1 (key_eqb_eq _ _)) in E. subst. contradiction.
    + rewrite (IH Hin). lra.
Qed.

Lemma Qsum_map_plus {B : Type} (g h : B -> Q) (l : list B) :
  Qsum (map (fun x => g x + h x) l) == Qsum (map g l) + Qsum (map h l).
Proof.
  induction l as [| a l IH]; simpl; [lra |]. rewrite IH. lra.
Qed.

Lemma Qsum_map_ext {B : Type} (g h : B -> Q) (l : list B) :
  (forall x, g x == h x) -> Qsum (map g l) == Qsum (map h l).
Proof.
  intros E. induction l as [| a l IH]; simpl; [reflexivity |].
  rewrite IH, E. reflexivity.
Qed.

Lemma partition_sum (ks : list K) (df : list A) :
  NoDup ks -> (forall r, In r df -> In (key r) ks) ->
  Qsum (map (fun k => Qsum (map f (rows_with key k df))) ks) == Qsum (map f df).
Proof.
  intros Hnd. induction df as [| r df IH]; intros Hks.
  - simpl. induction ks as [| k ks IHk]; simpl; [reflexivity |].
    inversion Hnd; subst. rewrite IHk; [lra | assumption | intros ? []].
  - simpl.
    rewrite (Qsum_map_ext _
               (fun k => (if key_eqb (key r) k then f r else 0)
                         + Qsum (map f (rows_with key k df)))).
    + rewrite Qsum_map_plus, IH, indicator_sum.
      * reflexivity.
      * exact Hnd.
      * apply Hks. left. reflexivity.
      * intros x Hx. apply Hks. right. exact Hx.
    + intros k. unfold rows_with at 1. simpl.
      destruct (key_eqb (key r) k); simpl; unfold rows_with; lra.
Qed.

(** Summing the group totals of a [groupby] gives the column total. *)
Lemma groupby_sum (df : list A) :
  Qsum (map (fun kg => Qsum (map f (snd kg))) (groupby key df)) == Qsum (map f df).
Proof.
  unfold groupby. rewrite map_map. simpl.
  apply partition_sum.
  - apply group_keys_NoDup.
  - intros r Hr. apply group_keys_In, in_map, Hr.
Qed.
End GroupByFacts.

(** ** Basic metrics: the shape of the output *)

(** The won impressions of campaign [k]. *)
Definition campaign_won (k : string) (impressions_df : list Impression.t)
  : list Impression.t :=
  rows_with Impression.campaign_id k (won_of impressions_df).

Lemma join_campaigns_In (campaigns_df : list Campaign.t) (k : string)
    (row : option Metrics.info -> Metrics.t) (r : Metrics.t) :
  In r (join_campaigns campaigns_df k row) -> exists c, r = row c.
Proof.
  unfold join_campaigns.
  destruct (rows_with Campaign.campaign_id k campaigns_df) as [| c cs].
  - intros [<- | []]. eauto.
  - intros Hin. apply in_map_iff in Hin as [c' [<- _]]. eauto.
Qed.



Section BasicMetrics.
Variables (impressions_df : list Impression.t) (clicks_df : list Click.t)
          (conversions_df : list Conversion.t) (campaigns_df : list Campaign.t).

Let out := calculate_basic_metrics impressions_df clicks_df conversions_df campaigns_df.

(** Every output row is [metrics_row] applied to the aggregate of one
    campaign's won impressions, of which there is at least one. *)
Lemma basic_metrics_row_inv (r : Metrics.t) :
  In r out ->
  exists c,
    campaign_won (Metrics.campaign_id r) impressions_df <> [] /\
    r = metrics_row (Metrics.campaign_id r)
          (agg_impressions (campaign_won (Metrics.campaign_id r) impressions_df))
          (join_fillna0 (Metrics.campaign_id r) (click_metrics clicks_df))
          (join_fillna0 (Metrics.campaign_id r) (conversion_metrics conversions_df))
          c.
Proof.
  unfold out, calculate_basic_metrics, impression_metrics. intros Hin.
  apply in_flat_map in Hin as [[k a] [Hka Hr]]. simpl in Hr.
  apply in_map_iff in Hka as [[k' g] [E Hg]]. simpl in E.
  injection E as -> <-.
  apply (proj1 (groupby_In _ _ _ _)) in Hg as [Hk ->].
  apply join_campaigns_In in Hr as [c ->]. simpl.
  exists c. split; [| reflexivity].
  apply rows_with_nonempty. exact Hk.
Qed.



End BasicMetrics.

(* ===================================================================== *)
(** ** Sample tables *)
(* ===================================================================== *)

Module Sample.
Definition at_noon (d : Date) : Timestamp := mkTs d 43200.

Definition impression (campaign publisher : string) (d : Date) (win : Q)
    (outcome : string) : Impression.t :=
  Impression.mk (at_noon d) campaign publisher "mobile" "US" "open_auction"
                (win + 1) win outcome.

Definition campaigns : list Campaign.t :=
  [ Campaign.mk "CAMP_000001" "Spring Sale" "ADV_0001"
      (mkDate 2024 1 1) (mkDate 2024 1 10) 10000 1000 "awareness" "active";
    Campaign.mk "CAMP_000002" "Brand Lift" "ADV_0002"
      (mkDate 2024 2 1) (mkDate 2024 2 29) 5000 200 "conversions" "paused" ].

Definition advertisers : list Advertiser.t :=
  [ Advertiser.mk "ADV_0001" "Acme Corp" "Retail";
    Advertiser.mk "ADV_0002" "Globex" "Finance" ].

(** Whole-cent win prices, as the generator writes them. *)
Definition impressions : list Impression.t :=
  [ impression "CAMP_000001" "PUB_0001" (mkDate 2024 1 2) (411 # 100) "won";
    impression "CAMP_000001" "PUB_0002" (mkDate 2024 1 2) (411 # 100) "won";
    impression "CAMP_000002" "PUB_0001" (mkDate 2024 2 3) (250 # 100) "lost";
    impression "CAMP_000001" "PUB_0001" (mkDate 2024 1 5) (412 # 100) "won" ].

Definition clicks : list Click.t :=
  [ Click.mk "CLK_1" (at_noon (mkDate 2024 1 2)) "CAMP_000001" (41 # 10000) ].

Definition conversions : list Conversion.t :=
  [ Conversion.mk "CNV_1" (at_noon (mkDate 2024 1 3)) "CAMP_000001" (2550 # 100) ].

End Sample.

(* ===================================================================== *)
(** ** Basic metrics: spend *)
(* ===================================================================== *)







(* ===================================================================== *)
(** ** Basic metrics: effective CPM *)
(* ===================================================================== *)

Lemma Qof_nat_pos (n : nat) : (1 <= n)%nat -> 1 <= Qof_nat n.
Proof.
  intros Hn. unfold Qof_nat, Qle; simpl. lia.
Qed.






(* ===================================================================== *)
(** ** Basic metrics: the derived ratios *)
(* ===================================================================== *)



Lemma round_dp_0 (d : nat) : round_dp d 0 = 0.
Proof.
  unfold round_dp.
  rewrite (round_half_even_proper (0 * inject_Z (pow10 d)) (inject_Z 0)) by ring.
  rewrite round_half_even_Z.
  apply (Qred_complete (inject_Z 0 / inject_Z (pow10 d)) 0).
  pose proof (inject_pow10_pos d). field. lra.
Qed.

Lemma Qgtb_true (a b : Q) : Qgtb a b = true <-> b < a.
Proof.
  unfold Qgtb. rewrite negb_true_iff.
  split.
  - intros E. apply Qnot_le_lt. intros L.
    apply (proj2 (Qle_bool_iff _ _)) in L. congruence.
  - intros L. destruct (Qle_bool a b) eqn:E; [| reflexivity].
    apply (proj1 (Qle_bool_iff _ _)) in E. lra.
Qed.

Lemma Qgtb_false (a b : Q) : Qgtb a b = false <-> a <= b.
Proof.
  unfold Qgtb. rewrite negb_false_iff. apply Qle_bool_iff.
Qed.

Lemma Qltb_true (a b : Q) : Qltb a b = true <-> a < b.
Proof. unfold Qltb. apply (Qgtb_true b a). Qed.

Lemma Qltb_false (a b : Q) : Qltb a b = false <-> b <= a.
Proof. unfold Qltb. apply (Qgtb_false b a). Qed.



(* ===================================================================== *)
(** ** Pacing analysis *)
(* ===================================================================== *)

(** The output rows are the loop bodies of the campaigns that pass the
    [continue] guard. *)
Lemma pacing_row_iff (impressions_df : list Impression.t)
    (campaigns_df : list Campaign.t) (r : Pacing.t) :
  In r (calculate_pacing_analysis impressions_df campaigns_df) <->
  exists c, In c campaigns_df /\
            campaign_won (Campaign.campaign_id c) impressions_df <> [] /\
            r = pacing_row c (campaign_won (Campaign.campaign_id c) impressions_df).
Proof.
  unfold calculate_pacing_analysis. rewrite in_flat_map.
  split; intros [c [Hc H]]; exists c; (split; [exact Hc |]).
  - fold (campaign_won (Campaign.campaign_id c) impressions_df) in H.
    destruct (campaign_won (Campaign.campaign_id c) impressions_df) as [| i g];
      simpl in H; [contradiction |].
    destruct H as [<- | []]. split; [discriminate | reflexivity].
  - destruct H as [Hne ->].
    fold (campaign_won (Campaign.campaign_id c) impressions_df).
    destruct (campaign_won (Campaign.campaign_id c) impressions_df) as [| i g];
      [congruence |].
    left. reflexivity.
Qed.

Lemma pacing_status_cases (b t : Q) :
  (pacing_status b t = "ahead" <-> 10 < b - t) /\
  (pacing_status b t = "behind" <-> b - t < - (10)) /\
  (pacing_status b t = "on_pace" <-> - (10) <= b - t <= 10).
Proof.
  unfold pacing_status.
  destruct (Qgtb b (t + 10)) eqn:G.
  - apply (proj1 (Qgtb_true _ _)) in G.
    repeat split; intros; try discriminate; try reflexivity; lra.
  - apply (proj1 (Qgtb_false _ _)) in G.
    destruct (Qltb b (t - 10)) eqn:L.
    + apply (proj1 (Qltb_true _ _)) in L.
      repeat split; intros; try discriminate; try reflexivity; lra.
    + apply (proj1 (Qltb_false _ _)) in L.
      repeat split; intros; try discriminate; try reflexivity; lra.
Qed.




Module PacingSample.
(** Budget 100, ten days, one active day: time elapsed is 10%. *)
Definition campaign (budget : Q) : Campaign.t :=
  Campaign.mk "CAMP_000007" "Launch" "ADV_0001"
    (mkDate 2024 3 1) (mkDate 2024 3 10) budget 10 "awareness" "active".

(** [n] won impressions on one day, each with win price 1000, that
    is a spend of 1.00 each. *)
Definition impressions (n : nat) : list Impression.t :=
  repeat (Sample.impression "CAMP_000007" "PUB_0003" (mkDate 2024 3 4) 1000 "won") n.
End PacingSample.


(** The scenario of the specification: budget 10,000, ten days, 5,000
    spent over three active days gives 50% against 30%, hence 'ahead'. *)
Example pacing_scenario_ahead :
  budget_spent_pct 5000 10000 == 50 /\ time_elapsed_pct 3 10 == 30 /\
  pacing_status (budget_spent_pct 5000 10000) (time_elapsed_pct 3 10) = "ahead".
Proof. repeat split. Qed.

(** The status is decided before the percentages are rounded to one
    decimal for display: a row can show 10.0 and 0.0 and still be
    'ahead'. *)
Example pacing_display_rounding :
  let b := 10.04 in let t := 0 in
  round_dp 1 b - round_dp 1 t == 10 /\ pacing_status b t = "ahead".
Proof. split; vm_compute; reflexivity. Qed.

(** C6: a campaign without a won impression has no row in the basic
    metrics and none in the pacing analysis.  Both functions are total,
    so there is no error either: the campaign is just absent. *)
Theorem no_won_impression_no_row
    (impressions_df : list Impression.t) (clicks_df : list Click.t)
    (conversions_df : list Conversion.t) (campaigns_df : list Campaign.t)
    (k : string) :
  campaign_won k impressions_df = [] ->
  (forall r, In r (calculate_basic_metrics impressions_df clicks_df conversions_df
                     campaigns_df) ->
             Metrics.campaign_id r <> k) /\
  (forall r, In r (calculate_pacing_analysis impressions_df campaigns_df) ->
             Pacing.campaign_id r <> k).
Proof.
  intros Hnone. split; intros r Hin Hk.
  - destruct (basic_metrics_row_inv _ _ _ _ r Hin) as [_ [Hne _]].
    rewrite Hk in Hne. contradiction.
  - apply (proj1 (pacing_row_iff _ _ _)) in Hin as [c [_ [Hne ->]]].
    simpl in Hk. rewrite Hk in Hne. contradiction.
Qed.

Lemma no_won_impression_no_row_witness :
  (forall r, In r (calculate_basic_metrics Sample.impressions Sample.clicks
                     Sample.conversions Sample.campaigns) ->
             Metrics.campaign_id r <> "CAMP_000002") /\
  (forall r, In r (calculate_pacing_analysis Sample.impressions Sample.campaigns) ->
             Pacing.campaign_id r <> "CAMP_000002").
Proof.
  apply (no_won_impression_no_row Sample.impressions Sample.clicks Sample.conversions
           Sample.campaigns "CAMP_000002").
  reflexivity.
Defined.

(** The campaign is in the campaign table, with a budget, and only its
    one lost impression keeps it out of both outputs. *)
Example dropped_campaign_rows :
  map Metrics.campaign_id
      (calculate_basic_metrics Sample.impressions Sample.clicks Sample.conversions
         Sample.campaigns) = ["CAMP_000001"] /\
  map Pacing.campaign_id
      (calculate_pacing_analysis Sample.impressions Sample.campaigns) = ["CAMP_000001"] /\
  map Campaign.campaign_id Sample.campaigns = ["CAMP_000001"; "CAMP_000002"].
Proof. repeat split. Qed.

(* ===================================================================== *)
(** ** Calendar arithmetic *)
(* ===================================================================== *)









(* ===================================================================== *)
(** ** Cash-flow analysis *)
(* ===================================================================== *)


Lemma in_combine_map {A B C : Type} (f : A * B -> C) (l : list A) (l' : list B) (c : C) :
  In c (map f (combine l l')) -> exists a b, In a l /\ In b l' /\ c = f (a, b).
Proof.
  intros Hin. apply in_map_iff in Hin as [[a b] [<- Hab]].
  exists a, b. split; [exact (in_combine_l _ _ _ _ Hab) |].
  split; [exact (in_combine_r _ _ _ _ Hab) | reflexivity].
Qed.



Section CashFlowRows.
Variables (e : Env) (impressions_df : list Impression.t)
          (campaigns_df : list Campaign.t) (advertisers_df : list Advertiser.t)
          (receivables : list Receivable.t) (payables : list Payable.t).
Hypothesis Hrun :
  calculate_cash_flow_analysis e impressions_df campaigns_df advertisers_df
  = Some (receivables, payables).


End CashFlowRows.

(** The function returns whenever every publisher id of a won
    impression has an underscore. *)
Lemma publisher_names_total (l : list string) :
  Forall (fun p => publisher_display_name p <> None) l ->
  exists names, publisher_names l = Some names.
Proof.
  induction 1 as [| p l Hp _ [names IH]]; simpl; [eauto |].
  destruct (publisher_display_name p); [| congruence].
  rewrite IH. eauto.
Qed.

Lemma cash_flow_returns (e : Env) (impressions_df : list Impression.t)
    (campaigns_df : list Campaign.t) (advertisers_df : list Advertiser.t) :
  Forall (fun i => publisher_display_name (Impression.publisher_id i) <> None)
         (won_of impressions_df) ->
  exists receivables payables,
    calculate_cash_flow_analysis e impressions_df campaigns_df advertisers_df
    = Some (receivables, payables).
Proof.
  intros Hall. unfold calculate_cash_flow_analysis.
  destruct (publisher_names_total
              (unique (map Impression.publisher_id (won_of impressions_df))))
    as [names ->]; [| eauto].
  apply Forall_forall. intros p Hp.
  apply (proj1 (unique_In _ _)) in Hp. apply in_map_iff in Hp as [i [<- Hi]].
  exact (proj1 (Forall_forall _ _) Hall i Hi).
Qed.

(** *** Aging buckets *)




Example aging_boundaries :
  aging_category 0 = "current" /\ aging_category 30 = "30_days" /\
  aging_category 31 = "60_days" /\ aging_category 60 = "60_days" /\
  aging_category 61 = "90_plus_days" /\ aging_category 90 = "90_plus_days" /\
  aging_category 91 = "90_plus_days".
Proof. repeat split. Qed.

Module CashSample.
(** A random source that always yields 0.5 and a fixed clock. *)
Definition env (current_date : Date) : Env := mkEnv (fun _ => 1 # 2) current_date.

Definition run (current_date : Date) : option (list Receivable.t * list Payable.t) :=
  calculate_cash_flow_analysis (env current_date)
    Sample.impressions Sample.campaigns Sample.advertisers.
End CashSample.




(** *** Due dates *)



(* ===================================================================== *)
(** ** Revenue by channel *)
(* ===================================================================== *)

Lemma Qsum_app (l l' : list Q) : Qsum (l ++ l') == Qsum l + Qsum l'.
Proof.
  induction l as [| a l IH]; simpl; [lra |]. rewrite IH. lra.
Qed.


Lemma dimension_revenue_by {A : Type} (key : A -> string) (spend : A -> Q)
    (tag channel_type : string) (df : list A) :
  dimension tag (revenue_by key spend channel_type df)
  = if String.eqb channel_type tag then revenue_by key spend channel_type df else [].
Proof.
  unfold dimension, revenue_by.
  induction (groupby key df) as [| kg l IH]; simpl.
  - destruct (String.eqb channel_type tag); reflexivity.
  - rewrite IH. destruct (String.eqb channel_type tag); reflexivity.
Qed.

Lemma dimension_app (tag : string) (l l' : list Revenue.t) :
  dimension tag (l ++ l') = dimension tag l ++ dimension tag l'.
Proof. apply filter_app. Qed.

(** Filtering the long-form table by its tag recovers each grouping. *)
Lemma dimension_split (impressions_df : list Impression.t)
    (campaigns_df : list Campaign.t) (advertisers_df : list Advertiser.t) :
  let out := calculate_revenue_by_channel impressions_df campaigns_df advertisers_df in
  let won := won_of impressions_df in
  dimension "device" out = device_revenue won /\
  dimension "auction" out = auction_revenue won /\
  dimension "geo" out = geo_revenue won /\
  dimension "industry" out = industry_revenue won campaigns_df advertisers_df.
Proof.
  cbv zeta. unfold calculate_revenue_by_channel.
  rewrite !dimension_app.
  unfold device_revenue, auction_revenue, geo_revenue, industry_revenue.
  rewrite !dimension_revenue_by. simpl.
  rewrite !app_nil_r. repeat split.
Qed.





Module RevenueSample.
Definition impression (campaign device geo auction : string) (win : Q)
    (outcome : string) : Impression.t :=
  Impression.mk (Sample.at_noon (mkDate 2024 1 2)) campaign "PUB_0001"
                device geo auction (win + 1) win outcome.

Definition impressions : list Impression.t :=
  [ impression "CAMP_000001" "mobile" "US" "open_auction" 12.50 "won";
    impression "CAMP_000002" "desktop" "US" "private_marketplace" 7.25 "won";
    impression "CAMP_000001" "mobile" "DE" "open_auction" 9.10 "won";
    impression "CAMP_000002" "tablet" "DE" "open_auction" 14.00 "lost" ].

(** A won impression of a campaign the campaign table does not list. *)
Definition orphan : list Impression.t :=
  [ impression "CAMP_000009" "mobile" "US" "open_auction" 12.50 "won" ].
End RevenueSample.




(* ===================================================================== *)
(** ** Dependence on the random source and the clock *)
(* ===================================================================== *)

(** One invocation, in the environment [e] it happens to run in. *)
Definition run (f : Aggregation) (e : Env) (t : Tables) : Output :=
  match f with
  | BasicMetrics =>
      MetricsTable (calculate_basic_metrics (impressions t) (clicks t)
                      (conversions t) (campaigns t))
  | RevenueByChannel =>
      RevenueTable (calculate_revenue_by_channel (impressions t) (campaigns t)
                      (advertisers t))
  | MarginAnalysis =>
      MarginTable (calculate_margin_analysis e (impressions t) (campaigns t))
  | PacingAnalysis =>
      PacingTable (calculate_pacing_analysis (impressions t) (campaigns t))
  | CashFlowAnalysis =>
      CashFlowTables (calculate_cash_flow_analysis e (impressions t) (campaigns t)
                        (advertisers t))
  end.






Module EnvSample.
Definition tables : Tables :=
  mkTables Sample.impressions Sample.clicks Sample.conversions Sample.campaigns
           Sample.advertisers.

Definition high_draws : Env := mkEnv (fun _ => 9 # 10) (mkDate 2024 4 15).
End EnvSample.




(* ===================================================================== *)
(** ** The store: what a call leaves untouched *)
(* ===================================================================== *)

Module Footprint.
Import Frame Store.
Local Open Scope store_scope.

(** [frames n m post]: started in a store with at least [n] objects,
    [m] leaves the objects at references below [n] as they were, keeps
    at least [n] objects, and returns a value satisfying [post]. *)
Definition frames (n : nat) {A : Type} (m : M A) (post : A -> Prop) : Prop :=
  forall h, (n <= length h)%nat ->
    post (fst (m h)) /\ (n <= length (snd (m h)))%nat /\
    forall i, (i < n)%nat -> nth_error (snd (m h)) i = nth_error h i.

(** A reference to an object made after the call began. *)
Definition fresh (n : nat) (r : ref) : Prop := (n <= r)%nat.

Definition any {A : Type} (_ : A) : Prop := True.

Lemma update_nth_length (r : nat) (df : DataFrame) (h : Heap) :
  length (update_nth r df h) = length h.
Proof.
  revert r. induction h as [| x h IH]; intros [| r]; simpl; auto.
Qed.

Lemma update_nth_other (r i : nat) (df : DataFrame) (h : Heap) :
  i <> r -> nth_error (update_nth r df h) i = nth_error h i.
Proof.
  revert r i. induction h as [| x h IH]; intros [| r] [| i] Hne; simpl; auto.
  congruence.
Qed.

Lemma frames_ret (n : nat) {A : Type} (a : A) (post : A -> Prop) :
  post a -> frames n (ret a) post.
Proof. intros Hp h Hn. simpl. auto. Qed.

Lemma frames_bind (n : nat) {A B : Type} (m : M A) (k : A -> M B)
    (P : A -> Prop) (Q : B -> Prop) :
  frames n m P -> (forall a, P a -> frames n (k a) Q) -> frames n (bind m k) Q.
Proof.
  intros Hm Hk h Hn. unfold bind.
  destruct (Hm h Hn) as [Hp [Hlen Hsame]].
  destruct (m h) as [a h1]. simpl in *.
  destruct (Hk a Hp h1 Hlen) as [Hq [Hlen2 Hsame2]].
  split; [exact Hq |]. split; [exact Hlen2 |].
  intros i Hi. rewrite (Hsame2 i Hi). apply Hsame. exact Hi.
Qed.

Lemma frames_weaken (n : nat) {A : Type} (m : M A) (P Q : A -> Prop) :
  frames n m P -> (forall a, P a -> Q a) -> frames n m Q.
Proof.
  intros Hm HPQ h Hn. destruct (Hm h Hn) as [Hp H]. split; auto.
Qed.

Lemma frames_alloc (n : nat) (df : DataFrame) : frames n (alloc df) (fresh n).
Proof.
  intros h Hn. unfold alloc, fresh. simpl.
  split; [exact Hn |]. split; [rewrite length_app; simpl; lia |].
  intros i Hi. apply nth_error_app1. lia.
Qed.

Lemma frames_load (n : nat) (r : ref) : frames n (load r) any.
Proof. intros h Hn. unfold load, any. simpl. auto. Qed.

Lemma frames_store (n : nat) (r : ref) (df : DataFrame) :
  fresh n r -> frames n (store r df) any.
Proof.
  intros Hr h Hn. unfold store, any, fresh in *. simpl.
  split; [exact I |]. split; [rewrite update_nth_length; exact Hn |].
  intros i Hi. apply update_nth_other. lia.
Qed.

Lemma frames_new1 (n : nat) (f : DataFrame -> DataFrame) (r : ref) :
  frames n (new1 f r) (fresh n).
Proof.
  unfold new1. eapply frames_bind; [apply frames_load |].
  intros df _. apply frames_alloc.
Qed.

Lemma frames_new2 (n : nat) (f : DataFrame -> DataFrame -> DataFrame) (r1 r2 : ref) :
  frames n (new2 f r1 r2) (fresh n).
Proof.
  unfold new2. eapply frames_bind; [apply frames_load |]. intros a _.
  eapply frames_bind; [apply frames_load |]. intros b _. apply frames_alloc.
Qed.

Lemma frames_load_all (n : nat) (rs : list ref) : frames n (load_all rs) any.
Proof.
  induction rs as [| r rs IH]; simpl.
  - apply frames_ret. exact I.
  - eapply frames_bind; [apply frames_load |]. intros df _.
    eapply frames_bind; [exact IH |]. intros dfs _.
    apply frames_ret. exact I.
Qed.

Lemma frames_new_of (n : nat) (f : list DataFrame -> DataFrame) (rs : list ref) :
  frames n (new_of f rs) (fresh n).
Proof.
  unfold new_of. eapply frames_bind; [apply frames_load_all |].
  intros dfs _. apply frames_alloc.
Qed.

(** An in-place statement is harmless on an object of the call's own. *)
Lemma frames_inplace (n : nat) (f : DataFrame -> DataFrame) (r : ref) :
  fresh n r -> frames n (inplace f r) any.
Proof.
  intros Hr. unfold inplace. eapply frames_bind; [apply frames_load |].
  intros df _. apply frames_store. exact Hr.
Qed.

Lemma frames_copy (n : nat) (r : ref) : frames n (copy r) (fresh n).
Proof. apply frames_new1. Qed.

Lemma frames_len (n : nat) (r : ref) : frames n (len r) any.
Proof.
  unfold len. eapply frames_bind; [apply frames_load |].
  intros df _. apply frames_ret. exact I.
Qed.

Lemma frames_for_each (n : nat) {A S : Type} (xs : list A) (body : S -> A -> M S)
    (acc : S) :
  (forall s x, frames n (body s x) any) -> frames n (for_each xs body acc) any.
Proof.
  intros Hbody. revert acc. induction xs as [| x xs IH]; intros acc; simpl.
  - apply frames_ret. exact I.
  - eapply frames_bind; [apply Hbody |]. intros s _. apply IH.
Qed.

(** One step of a program: the next statement is an expression that
    makes a new object, a read, or an in-place statement on an object
    already known to be fresh. *)
Ltac frame_step :=
  lazymatch goal with
  | |- frames _ (new1 _ _) _ => apply frames_new1
  | |- frames _ (new2 _ _ _) _ => apply frames_new2
  | |- frames _ (new_of _ _) _ => apply frames_new_of
  | |- frames _ (copy _) _ => apply frames_copy
  | |- frames _ (alloc _) _ => apply frames_alloc
  | |- frames _ (len _) _ => apply frames_len
  | |- frames _ (load _) _ => apply frames_load
  | |- frames _ (inplace _ _) _ => apply frames_inplace; assumption
  | |- frames _ (ret _) _ => apply frames_ret; solve [exact I | assumption]
  end.

Ltac frame_auto :=
  repeat lazymatch goal with
    | |- frames _ (bind _ _) _ =>
        eapply frames_bind; [frame_step | cbv beta; intros ? ?]
    | |- frames _ _ _ => frame_step
    end.

Lemma frames_won_copy (n : nat) (impressions_df : ref) :
  frames n (won_copy impressions_df) (fresh n).
Proof. unfold won_copy. frame_auto. Qed.

Lemma frames_join_campaign_columns (n : nat) (cols : list string)
    (left campaigns_df : ref) :
  frames n (join_campaign_columns cols left campaigns_df) (fresh n).
Proof. unfold join_campaign_columns. frame_auto. Qed.

Lemma frames_channel_revenue (n : nat) (key channel_type : string) (df : ref) :
  frames n (channel_revenue key channel_type df) (fresh n).
Proof. unfold channel_revenue. frame_auto. Qed.

Lemma frames_aging_and_status (n : nat) (e : Env) (pos terms : nat) (p_paid : Q)
    (amount : string) (table : ref) :
  fresh n table -> frames n (aging_and_status e pos terms p_paid amount table) any.
Proof. intros Hf. unfold aging_and_status. frame_auto. Qed.

Ltac frame_call :=
  lazymatch goal with
  | |- frames _ (won_copy _) _ => apply frames_won_copy
  | |- frames _ (join_campaign_columns _ _ _) _ => apply frames_join_campaign_columns
  | |- frames _ (channel_revenue _ _ _) _ => apply frames_channel_revenue
  | |- frames _ (aging_and_status _ _ _ _ _ _) _ =>
      apply frames_aging_and_status; assumption
  | |- _ => frame_step
  end.

Ltac frame_prog :=
  repeat lazymatch goal with
    | |- frames _ (bind _ _) _ =>
        eapply frames_bind; [frame_call | cbv beta; intros ? ?]
    | |- frames _ _ _ => frame_call
    end.

Lemma frames_basic_metrics (n : nat) (i c v k : ref) :
  frames n (Store.calculate_basic_metrics i c v k) (fresh n).
Proof. unfold Store.calculate_basic_metrics. frame_prog. Qed.

Lemma frames_revenue_by_channel (n : nat) (i k a : ref) :
  frames n (Store.calculate_revenue_by_channel i k a) (fresh n).
Proof. unfold Store.calculate_revenue_by_channel. frame_prog. Qed.

Lemma frames_margin_analysis (n : nat) (e : Env) (i k : ref) :
  frames n (Store.calculate_margin_analysis e i k) (fresh n).
Proof. unfold Store.calculate_margin_analysis. frame_prog. Qed.

Lemma frames_pacing_analysis (n : nat) (i k : ref) :
  frames n (Store.calculate_pacing_analysis i k) (fresh n).
Proof.
  unfold Store.calculate_pacing_analysis.
  eapply frames_bind; [apply frames_won_copy |]. intros won Hwon.
  eapply frames_bind; [apply frames_inplace; exact Hwon |]. intros _ _.
  eapply frames_bind; [apply frames_inplace; exact Hwon |]. intros _ _.
  eapply frames_bind; [apply frames_load |]. intros campaigns _.
  eapply frames_bind; [| intros data _; apply frames_alloc].
  apply frames_for_each. intros data campaign.
  eapply frames_bind; [apply frames_new1 |]. intros ci Hci.
  eapply frames_bind; [apply frames_len |]. intros len _.
  destruct (len =? 0)%nat.
  - apply frames_ret. exact I.
  - eapply frames_bind; [apply frames_new1 |]. intros g Hg.
    eapply frames_bind; [apply frames_load |]. intros ds _.
    apply frames_ret. exact I.
Qed.

Definition fresh_pair (n : nat) (r : option (ref * ref)) : Prop :=
  match r with
  | Some (a, b) => fresh n a /\ fresh n b
  | None => True
  end.

Lemma frames_cash_flow_analysis (n : nat) (e : Env) (i k a : ref) :
  frames n (Store.calculate_cash_flow_analysis e i k a) (fresh_pair n).
Proof.
  unfold Store.calculate_cash_flow_analysis.
  eapply frames_bind; [apply frames_won_copy |]. intros won Hwon.
  eapply frames_bind; [apply frames_inplace; exact Hwon |]. intros _ _.
  eapply frames_bind; [apply frames_inplace; exact Hwon |]. intros _ _.
  eapply frames_bind; [apply frames_new1 |]. intros picked _.
  eapply frames_bind; [apply frames_new2 |]. intros iwa _.
  eapply frames_bind; [apply frames_new1 |]. intros g _.
  eapply frames_bind; [apply frames_new1 |]. intros rec0 _.
  eapply frames_bind; [apply frames_new1 |]. intros picked2 _.
  eapply frames_bind; [apply frames_new2 |]. intros receivables Hrec.
  eapply frames_bind; [apply frames_aging_and_status; exact Hrec |]. intros _ _.
  eapply frames_bind; [apply frames_len |]. intros nr _.
  eapply frames_bind; [apply frames_load |]. intros wdf _.
  destruct (publisher_names _) as [names |].
  - eapply frames_bind; [apply frames_inplace; exact Hwon |]. intros _ _.
    eapply frames_bind; [apply frames_new1 |]. intros g2 _.
    eapply frames_bind; [apply frames_new1 |]. intros payables Hpay.
    eapply frames_bind; [apply frames_inplace; exact Hpay |]. intros _ _.
    eapply frames_bind; [apply frames_aging_and_status; exact Hpay |]. intros _ _.
    apply frames_ret. simpl. auto.
  - apply frames_ret. exact I.
Qed.

(** Every call returns only objects it made itself and leaves all
    objects that existed before as they were. *)
Lemma frames_call (n : nat) (f : Aggregation) (e : Env) (a : Args) :
  frames n (call f e a) (Forall (fresh n)).
Proof.
  destruct f; simpl.
  - eapply frames_bind; [apply frames_basic_metrics |].
    intros r Hr. apply frames_ret. auto.
  - eapply frames_bind; [apply frames_revenue_by_channel |].
    intros r Hr. apply frames_ret. auto.
  - eapply frames_bind; [apply frames_margin_analysis |].
    intros r Hr. apply frames_ret. auto.
  - eapply frames_bind; [apply frames_pacing_analysis |].
    intros r Hr. apply frames_ret. auto.
  - eapply frames_bind; [apply frames_cash_flow_analysis |].
    intros [[r p] |] Hr; apply frames_ret; simpl in *; [| constructor].
    destruct Hr. auto.
Qed.

End Footprint.

(** *** The two models agree on the sample tables *)

Module Agreement.
Import Frame.
Local Open Scope nat_scope.

Definition store_basic_metrics : DataFrame :=
  Encode.result (Store.calculate_basic_metrics 0 1 2 3 (Encode.heap EnvSample.tables)).

Definition typed_basic_metrics : list Metrics.t :=
  calculate_basic_metrics Sample.impressions Sample.clicks Sample.conversions
    Sample.campaigns.

Example basic_metrics_agree :
  Encode.column "campaign_id" store_basic_metrics
  = map (fun r => VStr (Metrics.campaign_id r)) typed_basic_metrics /\
  Encode.column "spend" store_basic_metrics
  = map (fun r => VNum (Metrics.spend r)) typed_basic_metrics /\
  Encode.column "ecpm" store_basic_metrics
  = map (fun r => VNum (Metrics.ecpm r)) typed_basic_metrics /\
  Encode.column "ctr" store_basic_metrics
  = map (fun r => VNum (Metrics.ctr r)) typed_basic_metrics /\
  Encode.column "cpc" store_basic_metrics
  = map (fun r => VNum (Metrics.cpc r)) typed_basic_metrics /\
  Encode.column "cpa" store_basic_metrics
  = map (fun r => VNum (Metrics.cpa r)) typed_basic_metrics /\
  Encode.column "roas" store_basic_metrics
  = map (fun r => VNum (Metrics.roas r)) typed_basic_metrics /\
  Encode.column "conversion_rate" store_basic_metrics
  = map (fun r => VNum (Metrics.conversion_rate r)) typed_basic_metrics.
Proof. repeat split; vm_compute; reflexivity. Qed.

Definition revenue_tables : Tables :=
  mkTables RevenueSample.impressions [] [] Sample.campaigns Sample.advertisers.

Example revenue_agree :
  let store := Encode.result
                 (Store.calculate_revenue_by_channel 0 3 4 (Encode.heap revenue_tables)) in
  let typed := calculate_revenue_by_channel RevenueSample.impressions Sample.campaigns
                 Sample.advertisers in
  Encode.column "channel" store = map (fun r => VStr (Revenue.channel r)) typed /\
  Encode.column "revenue" store = map (fun r => VNum (Revenue.revenue r)) typed /\
  Encode.column "channel_type" store = map (fun r => VStr (Revenue.channel_type r)) typed.
Proof. repeat split; vm_compute; reflexivity. Qed.

Example margin_agree :
  let store := Encode.result
                 (Store.calculate_margin_analysis EnvSample.high_draws 0 3
                    (Encode.heap EnvSample.tables)) in
  let typed := calculate_margin_analysis EnvSample.high_draws Sample.impressions
                 Sample.campaigns in
  Encode.column "total_buy_cost" store
  = map (fun r => VNum (Margin.total_buy_cost r)) typed /\
  Encode.column "total_margin" store
  = map (fun r => VNum (Margin.total_margin r)) typed /\
  Encode.column "avg_margin_pct" store
  = map (fun r => VNum (Margin.avg_margin_pct r)) typed /\
  Encode.column "margin_per_impression" store
  = map (fun r => VNum (Margin.margin_per_impression r)) typed.
Proof. repeat split; vm_compute; reflexivity. Qed.

Example pacing_agree :
  let store := Encode.result
                 (Store.calculate_pacing_analysis 0 3 (Encode.heap EnvSample.tables)) in
  let typed := calculate_pacing_analysis Sample.impressions Sample.campaigns in
  Encode.column "campaign_id" store = map (fun r => VStr (Pacing.campaign_id r)) typed /\
  Encode.column "budget_spent_pct" store
  = map (fun r => VNum (Pacing.budget_spent_pct r)) typed /\
  Encode.column "time_elapsed_pct" store
  = map (fun r => VNum (Pacing.time_elapsed_pct r)) typed /\
  Encode.column "pacing_status" store
  = map (fun r => VStr (Pacing.pacing_status r)) typed.
Proof. repeat split; vm_compute; reflexivity. Qed.

Example cash_flow_agree :
  let out := Store.calculate_cash_flow_analysis EnvSample.high_draws 0 3 4
               (Encode.heap EnvSample.tables) in
  exists r p receivables payables,
    fst out = Some (r, p) /\
    calculate_cash_flow_analysis EnvSample.high_draws Sample.impressions
      Sample.campaigns Sample.advertisers = Some (receivables, payables) /\
    Encode.column "due_date" (nth r (snd out) Frame.empty)
    = map (fun x => VDate (Receivable.due_date x)) receivables /\
    Encode.column "aging_category" (nth r (snd out) Frame.empty)
    = map (fun x => VStr (Receivable.aging_category x)) receivables /\
    Encode.column "payment_status" (nth r (snd out) Frame.empty)
    = map (fun x => VStr (Receivable.payment_status x)) receivables /\
    Encode.column "due_date" (nth p (snd out) Frame.empty)
    = map (fun x => VDate (Payable.due_date x)) payables /\
    Encode.column "publisher_name" (nth p (snd out) Frame.empty)
    = map (fun x => VStr (Payable.publisher_name x)) payables /\
    Encode.column "aging_category" (nth p (snd out) Frame.empty)
    = map (fun x => VStr (Payable.aging_category x)) payables.
Proof.
  cbv zeta. do 4 eexists.
  split; [vm_compute; reflexivity |].
  split; [vm_compute; reflexivity |].
  repeat split; vm_compute; reflexivity.
Qed.

End Agreement.

(** *** The frame property *)

(** The references a caller passes for the five tables. *)
Definition caller_args : Args := mkArgs 0%nat 1%nat 2%nat 3%nat 4%nat.

(** C8: whatever aggregation function is called, in whatever
    environment and on whatever references, every object that existed
    before the call, so in particular each table passed in, is the same
    object with the same content after the call; what the call returns
    are objects it created. *)
Theorem inputs_unchanged (f : Aggregation) (e : Env) (a : Args) (h : Store.Heap)
    (r : Store.ref) :
  (r < length h)%nat ->
  nth_error (snd (call f e a h)) r = nth_error h r /\
  Forall (fun out => (length h <= out)%nat) (fst (call f e a h)).
Proof.
  intros Hr.
  destruct (Footprint.frames_call (length h) f e a h (le_n _)) as [Hout [_ Hsame]].
  split; [apply Hsame; exact Hr | exact Hout].
Qed.

Lemma inputs_unchanged_witness :
  nth_error (snd (call CashFlowAnalysis EnvSample.high_draws caller_args
                    (Encode.heap EnvSample.tables))) 0%nat
  = nth_error (Encode.heap EnvSample.tables) 0%nat /\
  Forall (fun out => (length (Encode.heap EnvSample.tables) <= out)%nat)
         (fst (call CashFlowAnalysis EnvSample.high_draws caller_args
                 (Encode.heap EnvSample.tables))).
Proof.
  apply (inputs_unchanged CashFlowAnalysis EnvSample.high_draws caller_args
           (Encode.heap EnvSample.tables) 0%nat).
  simpl. lia.
Defined.

(** The copy is what protects the input: the same column assignment
    made on the table itself, as the dashboard does with
    [impressions_df['date'] = ...] before it calls the engine, does
    change the caller's object. *)
Example assignment_without_copy_changes_the_table :
  let h := Encode.heap EnvSample.tables in
  let add_date := Store.inplace
                    (Frame.assign "date" (fun _ r =>
                       Store.date_of (Frame.cell "timestamp" r))) 0%nat in
  nth_error (snd (add_date h)) 0%nat <> nth_error h 0%nat.
Proof. cbv zeta. vm_compute. discriminate. Qed.

(* ===================================================================== *)
(** * Further properties of the engine *)
(* ===================================================================== *)

(** ** More on rounding and grouping *)




Lemma decimals_opp (d : nat) (x : Q) : decimals d x -> decimals d (- x).
Proof.
  intros [a Ha]. exists (- a)%Z.
  pose proof (inject_pow10_pos d).
  rewrite Ha, inject_Z_opp. field. lra.
Qed.

Lemma decimals_minus (d : nat) (x y : Q) :
  decimals d x -> decimals d y -> decimals d (x - y).
Proof.
  intros Hx Hy. unfold Qminus. apply decimals_plus; [exact Hx |].
  apply decimals_opp. exact Hy.
Qed.

Lemma decimals_0 (d : nat) : decimals d 0.
Proof.
  exists 0%Z. pose proof (inject_pow10_pos d). field. lra.
Qed.

Lemma decimals_proper (d : nat) (x y : Q) : x == y -> decimals d x -> decimals d y.
Proof. intros E [a Ha]. exists a. rewrite <- E. exact Ha. Qed.

(** A column of values rounded to [d] decimals sums without loss. *)
Lemma Qsum_rounded_exact {A : Type} (d : nat) (f : A -> Q) (l : list A) :
  round_dp d (Qsum (map (fun a => round_dp d (f a)) l))
  == Qsum (map (fun a => round_dp d (f a)) l).
Proof.
  apply round_dp_exact, decimals_Qsum.
  apply Forall_map, Forall_forall. intros a _. apply round_dp_decimals.
Qed.

Lemma Qsum_nonneg (l : list Q) : Forall (fun x => 0 <= x) l -> 0 <= Qsum l.
Proof.
  induction 1 as [| x l Hx _ IH]; simpl; lra.
Qed.


Lemma Qsum_ones {A : Type} (l : list A) :
  Qsum (map (fun _ => 1) l) == Qof_nat (length l).
Proof.
  induction l as [| a l IH]; simpl length; simpl map; simpl Qsum; [reflexivity |].
  rewrite IH. unfold Qof_nat. rewrite Nat2Z.inj_succ, <- Z.add_1_l, inject_Z_plus.
  reflexivity.
Qed.

Section MoreGroupBy.
Context {K : Type} `{KeyOrder K}.

Lemma unique_length (l : list K) : (length (unique l) <= length l)%nat.
Proof.
  induction l as [| a l IH]; simpl; [lia |].
  pose proof (filter_length_le (fun x => negb (key_eqb x a)) (unique l)). lia.
Qed.

Lemma group_keys_length (l : list K) : (length (group_keys l) <= length l)%nat.
Proof.
  unfold group_keys.
  rewrite <- (Permutation_length (sort_keys_perm (unique l))).
  apply unique_length.
Qed.

Lemma group_keys_nonempty (l : list K) : l <> [] -> (1 <= length (group_keys l))%nat.
Proof.
  destruct l as [| a l]; [congruence |]. intros _.
  assert (Hin : In a (group_keys (a :: l))) by (apply group_keys_In; left; reflexivity).
  destruct (group_keys (a :: l)); [contradiction | simpl; lia].
Qed.

Context {A : Type}.
Variable key : A -> K.

Lemma groupby_length (df : list A) :
  length (groupby key df) = length (group_keys (map key df)).
Proof. unfold groupby. apply length_map. Qed.

(** With distinct keys in the table, a key selects at most one row. *)
Lemma rows_with_unique (df : list A) (a : A) :
  NoDup (map key df) -> In a df -> rows_with key (key a) df = [a].
Proof.
  induction df as [| x df IH]; intros Hnd Hin; [contradiction |].
  simpl in Hnd. apply NoDup_cons_iff in Hnd as [Hx Hnd].
  unfold rows_with in *. simpl.
  destruct Hin as [-> | Hin].
  - rewrite key_eqb_refl. f_equal.
    destruct (filter (fun r => key_eqb (key r) (key a)) df) as [| y l] eqn:E;
      [reflexivity |].
    exfalso. apply Hx.
    assert (Hy : In y (filter (fun r => key_eqb (key r) (key a)) df))
      by (rewrite E; left; reflexivity).
    apply filter_In in Hy as [Hy Ey]. apply (proj1 (key_eqb_eq _ _)) in Ey.
    rewrite <- Ey. apply in_map. exact Hy.
  - destruct (key_eqb (key x) (key a)) eqn:E.
    + apply (proj1 (key_eqb_eq _ _)) in E. exfalso. apply Hx. rewrite E.
      apply in_map. exact Hin.
    + apply IH; assumption.
Qed.

Lemma rows_with_at_most_one (df : list A) (k : K) :
  NoDup (map key df) -> (length (rows_with key k df) <= 1)%nat.
Proof.
  intros Hnd. destruct (rows_with key k df) as [| a l] eqn:E; [simpl; lia |].
  assert (Ha : In a (rows_with key k df)) by (rewrite E; left; reflexivity).
  apply (proj1 (rows_with_In _ _ _ _)) in Ha as [Ha <-].
  rewrite (rows_with_unique df a Hnd Ha) in E. injection E as <-. simpl. lia.
Qed.

Lemma rows_with_filter (p : A -> bool) (df : list A) (k : K) :
  rows_with key k (filter p df) = filter p (rows_with key k df).
Proof.
  unfold rows_with. induction df as [| a df IH]; simpl; [reflexivity |].
  destruct (p a) eqn:Ep; destruct (key_eqb (key a) k) eqn:Ek; simpl;
    rewrite ?Ep, ?Ek, IH; reflexivity.
Qed.
End MoreGroupBy.


(** ** Basic metrics: rows, joined counts and campaign columns *)

Lemma metrics_row_joined (k : string) (a : impression_agg) (cl cv : nat * Q)
    (c : option Metrics.info) :
  let r := metrics_row k a cl cv c in
  Metrics.campaign_id r = k /\
  Metrics.clicks r = fst cl /\ Metrics.click_spend r = snd cl /\
  Metrics.conversions r = fst cv /\ Metrics.conversion_value r = snd cv /\
  Metrics.campaign r = c.
Proof. cbv zeta. unfold metrics_row. cbn. repeat split. Qed.

(** The left join with the campaign table, row by row. *)
Lemma join_campaigns_cases (campaigns_df : list Campaign.t) (k : string)
    (row : option Metrics.info -> Metrics.t) (r : Metrics.t) :
  In r (join_campaigns campaigns_df k row) ->
  (rows_with Campaign.campaign_id k campaigns_df = [] /\ r = row None) \/
  (exists c, In c campaigns_df /\ Campaign.campaign_id c = k /\
             r = row (Some (campaign_info c))).
Proof.
  unfold join_campaigns.
  destruct (rows_with Campaign.campaign_id k campaigns_df) as [| c cs] eqn:E.
  - intros [<- | []]. left. split; reflexivity.
  - intros Hin. right. apply in_map_iff in Hin as [c' [<- Hc']].
    rewrite <- E in Hc'. apply (proj1 (rows_with_In _ _ _ _)) in Hc' as [Hc' Ek].
    exists c'. repeat split; assumption.
Qed.


Section BasicMetricsMore.
Variables (impressions_df : list Impression.t) (clicks_df : list Click.t)
          (conversions_df : list Conversion.t) (campaigns_df : list Campaign.t).

Let out := calculate_basic_metrics impressions_df clicks_df conversions_df campaigns_df.

Lemma basic_metrics_row_cases (r : Metrics.t) :
  In r out ->
  exists c,
    r = metrics_row (Metrics.campaign_id r)
          (agg_impressions (campaign_won (Metrics.campaign_id r) impressions_df))
          (join_fillna0 (Metrics.campaign_id r) (click_metrics clicks_df))
          (join_fillna0 (Metrics.campaign_id r) (conversion_metrics conversions_df))
          c /\
    ((rows_with Campaign.campaign_id (Metrics.campaign_id r) campaigns_df = []
      /\ c = None) \/
     (exists cm, In cm campaigns_df /\
                 Campaign.campaign_id cm = Metrics.campaign_id r /\
                 c = Some (campaign_info cm))).
Proof.
  unfold out, calculate_basic_metrics, impression_metrics. intros Hin.
  apply in_flat_map in Hin as [[k a] [Hka Hr]]. simpl in Hr.
  apply in_map_iff in Hka as [[k' g] [E Hg]]. simpl in E.
  injection E as -> <-.
  apply (proj1 (groupby_In _ _ _ _)) in Hg as [Hk ->].
  apply join_campaigns_cases in Hr as [[Hnone ->] | [cm [Hcm [Ek ->]]]].
  - exists None. split; [reflexivity |]. left. split; [exact Hnone | reflexivity].
  - exists (Some (campaign_info cm)). split; [reflexivity |].
    right. exists cm. repeat split; assumption.
Qed.

Lemma basic_metrics_ids_of_groups :
  NoDup (map Campaign.campaign_id campaigns_df) ->
  map Metrics.campaign_id out
  = map fst (impression_metrics (won_of impressions_df)).
Proof.
  intros Hnd. unfold out, calculate_basic_metrics.
  induction (impression_metrics (won_of impressions_df)) as [| [k a] l IH];
    [reflexivity |].
  simpl. rewrite map_app, IH. f_equal. clear IH.
  unfold join_campaigns.
  pose proof (rows_with_at_most_one Campaign.campaign_id campaigns_df k Hnd) as Hle.
  destruct (rows_with Campaign.campaign_id k campaigns_df) as [| c [| c' cs]];
    [reflexivity | reflexivity | simpl in Hle; lia].
Qed.
End BasicMetricsMore.

(** X1: when the campaign table has no duplicate campaign id, the
    basic metrics have exactly one row per campaign with a won
    impression: the campaign ids of the rows are the distinct campaign
    ids of the won impressions, in sorted order, each once. *)
Theorem basic_metrics_one_row_per_campaign
    (impressions_df : list Impression.t) (clicks_df : list Click.t)
    (conversions_df : list Conversion.t) (campaigns_df : list Campaign.t) :
  NoDup (map Campaign.campaign_id campaigns_df) ->
  let ids := map Metrics.campaign_id
               (calculate_basic_metrics impressions_df clicks_df conversions_df
                  campaigns_df) in
  ids = group_keys (map Impression.campaign_id (won_of impressions_df)) /\
  NoDup ids /\
  (forall k, In k ids <-> campaign_won k impressions_df <> []).
Proof.
  intros Hnd. cbv zeta.
  rewrite (basic_metrics_ids_of_groups _ _ _ _ Hnd).
  unfold impression_metrics. rewrite map_map. simpl.
  change (map (fun x : string * list Impression.t => fst x)
              (groupby Impression.campaign_id (won_of impressions_df)))
    with (map fst (groupby Impression.campaign_id (won_of impressions_df))).
  rewrite groupby_keys.
  split; [reflexivity |]. split; [apply group_keys_NoDup |].
  intros k. rewrite group_keys_In. unfold campaign_won.
  symmetry. apply rows_with_nonempty.
Qed.

Lemma basic_metrics_one_row_per_campaign_witness :
  map Metrics.campaign_id
      (calculate_basic_metrics Sample.impressions Sample.clicks Sample.conversions
         Sample.campaigns)
  = group_keys (map Impression.campaign_id (won_of Sample.impressions)).
Proof.
  apply (basic_metrics_one_row_per_campaign Sample.impressions Sample.clicks
           Sample.conversions Sample.campaigns).
  vm_compute. repeat constructor; simpl; intuition discriminate.
Defined.

(** A campaign id listed twice in the campaign table doubles the row. *)
Example duplicate_campaign_rows_duplicate_metrics :
  map Metrics.campaign_id
      (calculate_basic_metrics Sample.impressions Sample.clicks Sample.conversions
         (Sample.campaigns ++ Sample.campaigns))
  = ["CAMP_000001"; "CAMP_000001"].
Proof. vm_compute. reflexivity. Qed.



(** What the final left join puts into the campaign columns. *)
Lemma basic_metrics_campaign_join
    (impressions_df : list Impression.t) (clicks_df : list Click.t)
    (conversions_df : list Conversion.t) (campaigns_df : list Campaign.t)
    (r : Metrics.t) :
  In r (calculate_basic_metrics impressions_df clicks_df conversions_df campaigns_df) ->
  (Metrics.campaign r = None <->
   ~ In (Metrics.campaign_id r) (map Campaign.campaign_id campaigns_df)) /\
  (forall info, Metrics.campaign r = Some info ->
     exists c, In c campaigns_df /\ Campaign.campaign_id c = Metrics.campaign_id r /\
               info = campaign_info c).
Proof.
  intros Hin.
  destruct (basic_metrics_row_cases _ _ _ _ r Hin) as [c [E Hc]].
  set (k := Metrics.campaign_id r) in *.
  destruct (metrics_row_joined k (agg_impressions (campaign_won k impressions_df))
              (join_fillna0 k (click_metrics clicks_df))
              (join_fillna0 k (conversion_metrics conversions_df)) c)
    as [_ [_ [_ [_ [_ Hinfo]]]]].
  cbv zeta in Hinfo. rewrite <- E in Hinfo. rewrite Hinfo.
  destruct Hc as [[Hnone ->] | [cm [Hcm [Ek ->]]]].
  - split.
    + split; [| reflexivity]. intros _ Hk.
      apply (proj2 (rows_with_nonempty _ _ _)) in Hk. contradiction.
    + intros info Habs. discriminate.
  - split.
    + split; [discriminate |]. intros Hk. exfalso. apply Hk.
      rewrite <- Ek. apply in_map. exact Hcm.
    + intros info Hi. injection Hi as <-. exists cm. repeat split; assumption.
Qed.

(** X3: the final join is a left join: a row whose campaign id is not
    in the campaign table is kept, with the campaign columns absent;
    otherwise the campaign columns are those of a campaign row with
    that id. *)
Theorem basic_metrics_campaign_columns
    (impressions_df : list Impression.t) (clicks_df : list Click.t)
    (conversions_df : list Conversion.t) (campaigns_df : list Campaign.t)
    (r : Metrics.t) :
  In r (calculate_basic_metrics impressions_df clicks_df conversions_df campaigns_df) ->
  (Metrics.campaign r = None <->
   ~ In (Metrics.campaign_id r) (map Campaign.campaign_id campaigns_df)) /\
  (forall info, Metrics.campaign r = Some info ->
     exists c, In c campaigns_df /\ Campaign.campaign_id c = Metrics.campaign_id r /\
               info = campaign_info c).
Proof. apply basic_metrics_campaign_join. Qed.

Lemma basic_metrics_campaign_columns_witness :
  exists r,
    In r (calculate_basic_metrics RevenueSample.orphan [] [] Sample.campaigns) /\
    Metrics.campaign_id r = "CAMP_000009" /\
    (Metrics.campaign r = None <->
     ~ In (Metrics.campaign_id r) (map Campaign.campaign_id Sample.campaigns)) /\
    Metrics.campaign r = None.
Proof.
  eexists. split; [left; reflexivity |]. split; [reflexivity |].
  split; [| reflexivity].
  apply (basic_metrics_campaign_columns RevenueSample.orphan [] [] Sample.campaigns).
  left. reflexivity.
Defined.

(** ** Pacing: totals, forecast, row order and guards *)

Lemma daily_spend_total (g : list Impression.t) :
  Qsum (map snd (daily_spend g)) == Qsum (map spend_per_impression g).
Proof.
  unfold daily_spend. rewrite map_map. simpl.
  apply (groupby_sum impression_date spend_per_impression g).
Qed.

Lemma daily_spend_days (g : list Impression.t) :
  g <> [] -> (1 <= length (daily_spend g) <= length g)%nat.
Proof.
  intros Hne. unfold daily_spend. rewrite length_map, groupby_length.
  split.
  - apply group_keys_nonempty. destruct g; [congruence | discriminate].
  - rewrite <- (length_map impression_date g). apply group_keys_length.
Qed.

Lemma spend_per_impression_sum_decimals (g : list Impression.t) :
  decimals 2 (Qsum (map spend_per_impression g)).
Proof.
  apply decimals_Qsum, Forall_map, Forall_forall. intros i _.
  apply round_dp_decimals.
Qed.

(** X4: grouping by day loses nothing: in every pacing row total_spend
    is exactly the sum of the per-impression spend of the campaign's
    won impressions, and days_active lies between 1 and the number of
    those impressions. *)
Theorem pacing_total_spend (impressions_df : list Impression.t)
    (campaigns_df : list Campaign.t) (r : Pacing.t) :
  In r (calculate_pacing_analysis impressions_df campaigns_df) ->
  let g := campaign_won (Pacing.campaign_id r) impressions_df in
  Pacing.total_spend r == Qsum (map spend_per_impression g) /\
  (1 <= Pacing.days_active r <= length g)%nat.
Proof.
  intros Hin. apply (proj1 (pacing_row_iff _ _ _)) in Hin as [c [_ [Hne ->]]].
  cbv zeta. cbn [Pacing.campaign_id Pacing.total_spend Pacing.days_active pacing_row].
  set (g := campaign_won (Campaign.campaign_id c) impressions_df) in *.
  split; [| apply daily_spend_days; exact Hne].
  unfold round2. rewrite (round_dp_proper 2 _ _ (daily_spend_total g)).
  apply round_dp_exact, spend_per_impression_sum_decimals.
Qed.

Lemma pacing_total_spend_witness :
  exists r,
    In r (calculate_pacing_analysis (PacingSample.impressions 20)
            [PacingSample.campaign 100]) /\
    Pacing.total_spend r == 20 /\
    Pacing.total_spend r
    == Qsum (map spend_per_impression
                 (campaign_won (Pacing.campaign_id r) (PacingSample.impressions 20))).
Proof.
  exists (pacing_row (PacingSample.campaign 100) (PacingSample.impressions 20)).
  assert (Hin : In (pacing_row (PacingSample.campaign 100) (PacingSample.impressions 20))
                   (calculate_pacing_analysis (PacingSample.impressions 20)
                      [PacingSample.campaign 100])).
  { apply (proj2 (pacing_row_iff _ _ _)). exists (PacingSample.campaign 100).
    split; [left; reflexivity |].
    split; [vm_compute; discriminate | vm_compute; reflexivity]. }
  split; [exact Hin |]. split; [vm_compute; reflexivity |].
  apply (pacing_total_spend _ _ _ Hin).
Defined.



(** X6: the pacing rows follow the campaign table: one row for each
    campaign row that has a won impression, in the table's order (a
    campaign row listed twice is reported twice). *)
Theorem pacing_rows_follow_campaign_table (impressions_df : list Impression.t)
    (campaigns_df : list Campaign.t) :
  map Pacing.campaign_id (calculate_pacing_analysis impressions_df campaigns_df)
  = filter (fun k => negb (length (campaign_won k impressions_df) =? 0)%nat)
           (map Campaign.campaign_id campaigns_df).
Proof.
  unfold calculate_pacing_analysis.
  induction campaigns_df as [| c l IH]; [reflexivity |].
  simpl. rewrite map_app, IH.
  fold (campaign_won (Campaign.campaign_id c) impressions_df).
  destruct (length (campaign_won (Campaign.campaign_id c) impressions_df) =? 0)%nat;
    reflexivity.
Qed.

Lemma budget_spent_pct_zero_budget (total_spend budget_total : Q) :
  budget_total <= 0 -> budget_spent_pct total_spend budget_total = 0.
Proof.
  intros Hb. unfold budget_spent_pct.
  rewrite (proj2 (Qgtb_false _ _) Hb). reflexivity.
Qed.

Lemma time_elapsed_pct_nonneg (days_elapsed : nat) (days : Z) :
  0 <= time_elapsed_pct days_elapsed days.
Proof.
  unfold time_elapsed_pct. destruct (Z.ltb_spec 0 days); [| lra].
  assert (0 <= Qof_nat days_elapsed) by (unfold Qof_nat, Qle; simpl; lia).
  assert (0 < inject_Z days) by (unfold Qlt; simpl; lia).
  assert (0 <= Qof_nat days_elapsed / inject_Z days)
    by (apply Qle_shift_div_l; lra).
  lra.
Qed.

(** X7: the division guards of the pacing loop.  A campaign whose
    total budget is not positive is reported with budget_spent_pct 0
    and is never 'ahead'; a campaign whose end date precedes its start
    date (no positive length) is reported with time_elapsed_pct 0. *)
Theorem pacing_guards (impressions_df : list Impression.t)
    (campaigns_df : list Campaign.t) (c : Campaign.t) :
  In c campaigns_df ->
  campaign_won (Campaign.campaign_id c) impressions_df <> [] ->
  let r := pacing_row c (campaign_won (Campaign.campaign_id c) impressions_df) in
  In r (calculate_pacing_analysis impressions_df campaigns_df) /\
  (Campaign.budget_total c <= 0 ->
   Pacing.budget_spent_pct r = 0 /\ Pacing.pacing_status r <> "ahead") /\
  ((campaign_days c <= 0)%Z -> Pacing.time_elapsed_pct r = 0).
Proof.
  intros Hc Hne. cbv zeta.
  set (g := campaign_won (Campaign.campaign_id c) impressions_df) in *.
  split; [apply pacing_row_iff; exists c; auto |].
  cbn [Pacing.budget_spent_pct Pacing.time_elapsed_pct Pacing.pacing_status pacing_row].
  split.
  - intros Hb. rewrite (budget_spent_pct_zero_budget _ _ Hb).
    split; [apply round_dp_0 |].
    intros Ha. apply (proj1 (proj1 (pacing_status_cases _ _))) in Ha.
    pose proof (time_elapsed_pct_nonneg (length (daily_spend g)) (campaign_days c)).
    lra.
  - intros Hd. unfold time_elapsed_pct.
    destruct (Z.ltb_spec 0 (campaign_days c)); [lia |]. apply round_dp_0.
Qed.

Lemma pacing_guards_witness :
  let c := PacingSample.campaign 0 in
  let r := pacing_row c (campaign_won (Campaign.campaign_id c)
                           (PacingSample.impressions 2)) in
  In r (calculate_pacing_analysis (PacingSample.impressions 2) [c]) /\
  Pacing.budget_spent_pct r = 0 /\ Pacing.pacing_status r = "on_pace".
Proof.
  cbv zeta.
  destruct (pacing_guards (PacingSample.impressions 2) [PacingSample.campaign 0]
              (PacingSample.campaign 0)) as [Hin [Hb _]].
  - left. reflexivity.
  - vm_compute. discriminate.
  - split; [exact Hin |]. split; [| vm_compute; reflexivity].
    apply Hb. vm_compute. discriminate.
Defined.

(** ** Cash flow: when the call fails *)











(** ** The generator's publisher ids *)






Lemma zero_padded_length (width n : nat) :
  (width <= String.length (zero_padded width n))%nat.
Proof.
  unfold zero_padded.
  assert (Hl : forall a b, String.length (a ++ b)%string
                           = (String.length a + String.length b)%nat).
  { intros a b. induction a as [| x a IH]; simpl; [reflexivity | rewrite IH; reflexivity]. }
  assert (Hz : forall k, String.length (string_of_list_ascii (repeat "0"%char k)) = k).
  { induction k as [| k IH]; simpl; [reflexivity | rewrite IH; reflexivity]. }
  rewrite Hl, Hz. lia.
Qed.



(** ** Cash flow: amounts *)



Lemma random_uniform_length (e : Env) (pos n : nat) (low high : Q) :
  length (random_uniform e pos n low high) = n.
Proof.
  unfold random_uniform, draw. rewrite !length_map. apply length_seq.
Qed.

Lemma map_fst_combine_same {A B : Type} (l : list A) (l' : list B) :
  length l' = length l -> map fst (combine l l') = l.
Proof.
  revert l'. induction l as [| a l IH]; intros [| b l'] Hlen; simpl in *;
    try reflexivity; try discriminate.
  f_equal. apply IH. lia.
Qed.




Section CashFlowAmounts.
Variables (e : Env) (impressions_df : list Impression.t)
          (campaigns_df : list Campaign.t) (advertisers_df : list Advertiser.t)
          (receivables : list Receivable.t) (payables : list Payable.t).
Hypothesis Hrun :
  calculate_cash_flow_analysis e impressions_df campaigns_df advertisers_df
  = Some (receivables, payables).






End CashFlowAmounts.













(** ** Margin analysis *)

Lemma margin_of_group_In (campaigns_df : list Campaign.t) (k : string)
    (g : list margin_row) (m : Margin.t) :
  In m (margin_of_group campaigns_df k g) ->
  Margin.campaign_id m = k /\
  Margin.total_buy_cost m = round2 (Qsum (map buy_side_cost g)) /\
  Margin.total_sell_revenue m = round2 (Qsum (map sell_side_revenue g)) /\
  Margin.total_margin m = round2 (Qsum (map margin g)) /\
  Margin.impressions m = length g.
Proof.
  unfold margin_of_group. cbv zeta.
  destruct (rows_with Campaign.campaign_id k campaigns_df) as [| c cs].
  - intros [<- | []]. cbn. repeat split.
  - intros Hin. apply in_map_iff in Hin as [c' [<- _]]. cbn. repeat split.
Qed.

Lemma margin_rows_In (e : Env) (won_impressions : list Impression.t) (r : margin_row) :
  In r (margin_rows e won_impressions) ->
  exists i share, In i won_impressions /\ r = with_margin i share.
Proof.
  unfold margin_rows. intros Hin.
  apply in_combine_map in Hin as [i [u [Hi [_ ->]]]]. simpl. eauto.
Qed.

Lemma margin_rows_impressions (e : Env) (won_impressions : list Impression.t) :
  map mr_impression (margin_rows e won_impressions) = won_impressions.
Proof.
  unfold margin_rows. rewrite map_map. cbn [mr_impression with_margin].
  change (map (fun x : Impression.t * Q => fst x)
              (combine won_impressions
                 (random_uniform e 0 (length won_impressions) (7 # 10) (8 # 10))))
    with (map fst (combine won_impressions
                     (random_uniform e 0 (length won_impressions) (7 # 10) (8 # 10)))).
  apply map_fst_combine_same, random_uniform_length.
Qed.

Lemma rows_with_map_length {K A B : Type} `{KeyOrder K} (key : A -> K) (f : B -> A)
    (k : K) (l : list B) :
  length (rows_with (fun b => key (f b)) k l) = length (rows_with key k (map f l)).
Proof.
  unfold rows_with. induction l as [| b l IH]; simpl; [reflexivity |].
  destruct (key_eqb (key (f b)) k); simpl; rewrite IH; reflexivity.
Qed.

Lemma Qsum_map_minus {A : Type} (f g : A -> Q) (l : list A) :
  Qsum (map (fun x => f x - g x) l) == Qsum (map f l) - Qsum (map g l).
Proof.
  induction l as [| a l IH]; simpl; [lra |]. rewrite IH. lra.
Qed.

(** X14: with win prices in whole cents the margin table balances:
    in every row total_margin is exactly total_sell_revenue minus
    total_buy_cost, whatever shares were drawn, and impressions is the
    number of the campaign's won impressions. *)
Theorem margin_balances (e : Env) (impressions_df : list Impression.t)
    (campaigns_df : list Campaign.t) (m : Margin.t) :
  Forall (fun i => decimals 2 (Impression.win_price i)) (won_of impressions_df) ->
  In m (calculate_margin_analysis e impressions_df campaigns_df) ->
  Margin.total_margin m == Margin.total_sell_revenue m - Margin.total_buy_cost m /\
  Margin.impressions m = length (campaign_won (Margin.campaign_id m) impressions_df).
Proof.
  intros Hcents Hin. unfold calculate_margin_analysis in Hin.
  apply in_flat_map in Hin as [[k g] [Hg Hm]]. simpl in Hm.
  apply margin_of_group_In in Hm as [Hk [Hbuy [Hsell [Hmar Hn]]]].
  apply (proj1 (groupby_In _ _ _ _)) in Hg as [_ Eg].
  assert (Hrow : forall r, In r g ->
            decimals 2 (buy_side_cost r) /\ decimals 2 (sell_side_revenue r) /\
            margin r == sell_side_revenue r - buy_side_cost r).
  { intros r Hr. rewrite Eg in Hr.
    apply (proj1 (rows_with_In _ _ _ _)) in Hr as [Hr _].
    apply margin_rows_In in Hr as [i [share [Hi ->]]].
    pose proof (proj1 (Forall_forall _ _) Hcents i Hi) as Hd.
    cbn [buy_side_cost sell_side_revenue margin with_margin].
    split; [apply round_dp_decimals |]. split; [exact Hd |].
    apply round_dp_exact, decimals_minus; [exact Hd | apply round_dp_decimals]. }
  split.
  - rewrite Hmar, Hsell, Hbuy. unfold round2.
    assert (Hb : decimals 2 (Qsum (map buy_side_cost g))).
    { apply decimals_Qsum, Forall_map, Forall_forall. intros r Hr.
      apply (Hrow r Hr). }
    assert (Hs : decimals 2 (Qsum (map sell_side_revenue g))).
    { apply decimals_Qsum, Forall_map, Forall_forall. intros r Hr.
      apply (Hrow r Hr). }
    assert (Em : Qsum (map margin g)
                 == Qsum (map sell_side_revenue g) - Qsum (map buy_side_cost g)).
    { rewrite <- Qsum_map_minus. clear - Hrow.
      induction g as [| r g IH]; simpl; [reflexivity |].
      rewrite IH; [| intros x Hx; apply Hrow; right; exact Hx].
      rewrite (proj2 (proj2 (Hrow r (or_introl eq_refl)))). reflexivity. }
    rewrite (round_dp_exact 2 _ Hb), (round_dp_exact 2 _ Hs).
    rewrite (round_dp_proper 2 _ _ Em).
    apply round_dp_exact, decimals_minus; assumption.
  - rewrite Hn, Hk, Eg. unfold campaign_won.
    rewrite (rows_with_map_length Impression.campaign_id mr_impression).
    rewrite margin_rows_impressions. reflexivity.
Qed.

Lemma margin_balances_witness :
  exists m,
    In m (calculate_margin_analysis EnvSample.high_draws Sample.impressions
            Sample.campaigns) /\
    Margin.total_sell_revenue m == 12.34 /\ Margin.total_buy_cost m == 9.75 /\
    Margin.total_margin m == Margin.total_sell_revenue m - Margin.total_buy_cost m.
Proof.
  eexists. split; [left; reflexivity |].
  split; [vm_compute; reflexivity |]. split; [vm_compute; reflexivity |].
  apply (margin_balances EnvSample.high_draws Sample.impressions Sample.campaigns).
  - repeat apply Forall_cons; try apply Forall_nil;
      [exists 411%Z | exists 411%Z | exists 412%Z]; vm_compute; reflexivity.
  - left. reflexivity.
Defined.

(** ** Daily time series *)

Lemma daily_row_fields (d : Date) (g : list Impression.t) (cl cv : nat * Q) :
  let r := daily_row d g cl cv in
  Daily.date r = d /\ Daily.impressions r = length g /\
  Daily.spend r = round2 (Qsum (map spend_per_impression g)) /\
  Daily.clicks r = fst cl /\ Daily.conversions r = fst cv.
Proof. cbv zeta. unfold daily_row. cbn. repeat split. Qed.

(** X15: the daily series partitions the won impressions by calendar
    day: the days are distinct, a day has a row exactly when a won
    impression falls on it (days with only clicks or conversions are
    dropped), the daily impression counts add up to the number of won
    impressions and the daily spend adds up to the total per-impression
    spend. *)
Theorem time_series_partitions (impressions_df : list Impression.t)
    (clicks_df : list Click.t) (conversions_df : list Conversion.t) :
  let daily := prepare_time_series_data impressions_df clicks_df conversions_df in
  NoDup (map Daily.date daily) /\
  (forall d, In d (map Daily.date daily) <->
             exists i, In i (won_of impressions_df) /\ impression_date i = d) /\
  Qsum (map (fun r => Qof_nat (Daily.impressions r)) daily)
  == Qof_nat (length (won_of impressions_df)) /\
  Qsum (map Daily.spend daily)
  == Qsum (map spend_per_impression (won_of impressions_df)).
Proof.
  cbv zeta. unfold prepare_time_series_data.
  set (won := won_of impressions_df).
  set (dc := daily_clicks clicks_df). set (dv := daily_conversions conversions_df).
  assert (Hdates : map Daily.date
                     (map (fun kg => daily_row (fst kg) (snd kg)
                                       (lookup_fillna0 (fst kg) dc)
                                       (lookup_fillna0 (fst kg) dv))
                          (groupby impression_date won))
                   = group_keys (map impression_date won)).
  { rewrite map_map. cbn [Daily.date daily_row].
    change (map (fun x : Date * list Impression.t => fst x) (groupby impression_date won))
      with (map fst (groupby impression_date won)).
    apply groupby_keys. }
  split; [rewrite Hdates; apply group_keys_NoDup |].
  split.
  - intros d. rewrite Hdates, group_keys_In, in_map_iff.
    split; intros [i [H1 H2]]; exists i; auto.
  - split.
    + rewrite map_map. cbn [Daily.impressions daily_row].
      rewrite (Qsum_map_ext _ (fun kg : Date * list Impression.t =>
                                 Qsum (map (fun _ => 1) (snd kg)))).
      * rewrite (groupby_sum impression_date (fun _ => 1) won). apply Qsum_ones.
      * intros kg. symmetry. apply Qsum_ones.
    + rewrite map_map. cbn [Daily.spend daily_row].
      rewrite (Qsum_map_ext _ (fun kg : Date * list Impression.t =>
                                 Qsum (map spend_per_impression (snd kg)))).
      * apply (groupby_sum impression_date spend_per_impression won).
      * intros kg. unfold round2.
        apply round_dp_exact, spend_per_impression_sum_decimals.
Qed.

(** The conversion of January 3rd, a day without won impression, is
    not in the series. *)
Example time_series_sample :
  map Daily.date
      (prepare_time_series_data Sample.impressions Sample.clicks Sample.conversions)
  = [mkDate 2024 1 2; mkDate 2024 1 5] /\
  map Daily.conversions
      (prepare_time_series_data Sample.impressions Sample.clicks Sample.conversions)
  = [0%nat; 0%nat].
Proof. split; vm_compute; reflexivity. Qed.

Lemma lookup_fillna0_agg {K A : Type} `{KeyOrder K} (key : A -> K) (cost : A -> Q)
    (df : list A) (k : K) :
  lookup_fillna0 k
    (map (fun kg => (fst kg, (length (snd kg), round2 (Qsum (map cost (snd kg))))))
         (groupby key df))
  = (length (rows_with key k df), round2 (Qsum (map cost (rows_with key k df)))).
Proof.
  unfold lookup_fillna0.
  rewrite (index_lookup_agg key
             (fun g => (length g, round2 (Qsum (map cost g)))) df k).
  destruct (existsb (fun x => key_eqb x k) (map key df)) eqn:Ex; [reflexivity |].
  assert (Hnone : rows_with key k df = []).
  { destruct (rows_with key k df) as [| a l] eqn:E; [reflexivity |].
    assert (Hne : rows_with key k df <> []) by (rewrite E; discriminate).
    apply (proj1 (rows_with_nonempty _ _ _)) in Hne.
    assert (Et : existsb (fun x => key_eqb x k) (map key df) = true)
      by (apply existsb_exists; exists k; split; [exact Hne | apply key_eqb_refl]).
    congruence. }
  rewrite Hnone. simpl. unfold round2. rewrite round_dp_0. reflexivity.
Qed.

(** X16: in the daily series, clicks and conversions of a day are the
    numbers of click and conversion rows whose timestamp falls on that
    day, whatever campaign they belong to, and 0 when there is none. *)
Theorem time_series_daily_counts (impressions_df : list Impression.t)
    (clicks_df : list Click.t) (conversions_df : list Conversion.t) (r : Daily.t) :
  In r (prepare_time_series_data impressions_df clicks_df conversions_df) ->
  Daily.clicks r
  = length (rows_with (fun c => ts_date (Click.timestamp c)) (Daily.date r) clicks_df) /\
  Daily.conversions r
  = length (rows_with (fun c => ts_date (Conversion.timestamp c)) (Daily.date r)
              conversions_df) /\
  (1 <= Daily.impressions r)%nat.
Proof.
  unfold prepare_time_series_data. intros Hin.
  apply in_map_iff in Hin as [[d g] [<- Hg]].
  cbn [Daily.clicks Daily.conversions Daily.date Daily.impressions daily_row fst snd].
  unfold daily_clicks, daily_conversions.
  rewrite !lookup_fillna0_agg. cbn [fst].
  repeat split.
  apply groupby_group_nonempty in Hg.
  destruct g; [congruence | simpl; lia].
Qed.

Lemma time_series_daily_counts_witness :
  exists r,
    In r (prepare_time_series_data Sample.impressions Sample.clicks
            Sample.conversions) /\
    Daily.date r = mkDate 2024 1 2 /\ Daily.clicks r = 1%nat /\
    Daily.clicks r
    = length (rows_with (fun c => ts_date (Click.timestamp c)) (Daily.date r)
                Sample.clicks).
Proof.
  eexists. split; [left; reflexivity |].
  split; [reflexivity |]. split; [reflexivity |].
  apply (time_series_daily_counts Sample.impressions Sample.clicks Sample.conversions).
  left. reflexivity.
Defined.

(** ** Revenue by channel: the channels *)

Lemma revenue_by_channels {A : Type} (key : A -> string) (spend : A -> Q)
    (channel_type : string) (df : list A) :
  map Revenue.channel (revenue_by key spend channel_type df) = group_keys (map key df).
Proof.
  unfold revenue_by. rewrite map_map. cbn [Revenue.channel].
  change (map (fun x : string * list A => fst x) (groupby key df))
    with (map fst (groupby key df)).
  apply groupby_keys.
Qed.

Lemma revenue_by_nonneg {A : Type} (key : A -> string) (spend : A -> Q)
    (channel_type : string) (df : list A) (r : Revenue.t) :
  (forall a, In a df -> 0 <= spend a) ->
  In r (revenue_by key spend channel_type df) -> 0 <= Revenue.revenue r.
Proof.
  intros Hs Hin. unfold revenue_by in Hin.
  apply in_map_iff in Hin as [[k g] [<- Hg]]. cbn [Revenue.revenue snd].
  apply (proj1 (groupby_In _ _ _ _)) in Hg as [_ ->].
  apply Qsum_nonneg, Forall_map, Forall_forall. intros a Ha.
  apply (proj1 (rows_with_In _ _ _ _)) in Ha as [Ha _]. apply Hs, Ha.
Qed.

(** X17: no channel is counted twice: within the device, the auction
    and the geo dimension the channels are distinct, and they are
    exactly the device types, auction types and countries that occur
    among the won impressions; a value seen only on lost impressions
    has no row. *)
Theorem revenue_channels_distinct (impressions_df : list Impression.t)
    (campaigns_df : list Campaign.t) (advertisers_df : list Advertiser.t) :
  let out := calculate_revenue_by_channel impressions_df campaigns_df advertisers_df in
  let won := won_of impressions_df in
  (NoDup (map Revenue.channel (dimension "device" out)) /\
   forall ch, In ch (map Revenue.channel (dimension "device" out)) <->
              In ch (map Impression.device_type won)) /\
  (NoDup (map Revenue.channel (dimension "auction" out)) /\
   forall ch, In ch (map Revenue.channel (dimension "auction" out)) <->
              In ch (map Impression.auction_type won)) /\
  (NoDup (map Revenue.channel (dimension "geo" out)) /\
   forall ch, In ch (map Revenue.channel (dimension "geo" out)) <->
              In ch (map Impression.geo_country won)) /\
  NoDup (map Revenue.channel (dimension "industry" out)).
Proof.
  cbv zeta.
  destruct (dimension_split impressions_df campaigns_df advertisers_df)
    as [-> [-> [-> ->]]].
  unfold device_revenue, auction_revenue, geo_revenue, industry_revenue.
  rewrite !revenue_by_channels.
  repeat split; try apply group_keys_NoDup; intros H; apply group_keys_In; exact H.
Qed.

(** ** The dashboard's filters *)

Lemma isin_In (x : string) (values : list string) : isin x values = true <-> In x values.
Proof.
  unfold isin. rewrite existsb_exists. split.
  - intros [y [Hy E]]. apply String.eqb_eq in E. subst. exact Hy.
  - intros Hx. exists x. split; [exact Hx | apply String.eqb_refl].
Qed.

Lemma filter_unless_all_filter {A : Type} (selected : list string) (p : A -> bool)
    (df : list A) :
  filter_unless_all selected p df = filter (fun a => isin "All" selected || p a) df.
Proof.
  unfold filter_unless_all. destruct (isin "All" selected); simpl; [| reflexivity].
  induction df as [| a df IH]; simpl; [reflexivity | rewrite <- IH; reflexivity].
Qed.

(** The filtered campaigns are campaigns of the table, in its order. *)
Lemma filtered_campaigns_filter (f : Filters) (t : Tables) :
  exists p q, filtered_campaigns f t = filter q (filter p (campaigns t)).
Proof.
  unfold filtered_campaigns. rewrite !filter_unless_all_filter. eauto.
Qed.

Lemma filtered_campaigns_In (f : Filters) (t : Tables) (c : Campaign.t) :
  In c (filtered_campaigns f t) -> In c (campaigns t).
Proof.
  destruct (filtered_campaigns_filter f t) as [p [q ->]]. intros Hin.
  apply filter_In in Hin as [Hin _]. apply filter_In in Hin as [Hin _]. exact Hin.
Qed.


Lemma campaign_ids_In (f : Filters) (t : Tables) (k : string) :
  isin k (campaign_ids f t) = true <->
  exists c, In c (filtered_campaigns f t) /\ Campaign.campaign_id c = k.
Proof.
  rewrite isin_In. unfold campaign_ids. rewrite unique_In, in_map_iff.
  split; intros [c [H1 H2]]; exists c; auto.
Qed.

(** Every filtered impression belongs to a filtered campaign. *)
Lemma filtered_impressions_campaign (f : Filters) (t : Tables) (i : Impression.t) :
  In i (filtered_impressions f t) ->
  exists c, In c (filtered_campaigns f t) /\
            Campaign.campaign_id c = Impression.campaign_id i.
Proof.
  unfold filtered_impressions. intros Hin.
  apply filter_In in Hin as [_ Hk]. apply campaign_ids_In. exact Hk.
Qed.

Lemma won_of_In (impressions_df : list Impression.t) (i : Impression.t) :
  In i (won_of impressions_df) -> In i impressions_df.
Proof. unfold won_of. intros Hin. apply filter_In in Hin. tauto. Qed.




Module FilterSample.
Definition tables : Tables :=
  mkTables RevenueSample.impressions Sample.clicks Sample.conversions Sample.campaigns
           Sample.advertisers.

(** The whole of January 2024, mobile only, advertiser 'Acme Corp'. *)
Definition january_mobile_acme : Filters :=
  mkFilters (mkDate 2024 1 1) (mkDate 2024 1 31) ["mobile"] ["Acme Corp"] ["All"].

(** Nothing selected in the status box. *)
Definition no_status : Filters :=
  mkFilters (mkDate 2024 1 1) (mkDate 2024 1 31) ["All"] ["All"] [].
End FilterSample.



(** X19: the filters never leave an orphan: for every choice of the
    sidebar filters, each row of the basic metrics computed from the
    filtered tables carries the columns of its campaign. *)
Theorem dashboard_metrics_have_campaign (f : Filters) (t : Tables) (r : Metrics.t) :
  let shown := apply_filters f t in
  In r (calculate_basic_metrics (impressions shown) (clicks shown) (conversions shown)
          (campaigns shown)) ->
  exists c, In c (campaigns t) /\ Campaign.campaign_id c = Metrics.campaign_id r /\
            Metrics.campaign r = Some (campaign_info c).
Proof.
  cbv zeta. cbn [apply_filters impressions clicks conversions campaigns]. intros Hin.
  destruct (basic_metrics_campaign_join _ _ _ _ r Hin) as [Hnone Hsome].
  destruct (Metrics.campaign r) as [info |] eqn:Ec.
  - destruct (Hsome info eq_refl) as [c [Hc [Ek ->]]].
    exists c. split; [apply (filtered_campaigns_In f t c Hc) |]. split; [exact Ek |].
    reflexivity.
  - exfalso. apply (proj1 Hnone eq_refl).
    destruct (basic_metrics_row_inv _ _ _ _ r Hin) as [_ [Hne _]].
    unfold campaign_won in Hne.
    apply (proj1 (rows_with_nonempty _ _ _)) in Hne.
    apply in_map_iff in Hne as [i [Ek Hi]]. apply won_of_In in Hi.
    destruct (filtered_impressions_campaign f t i Hi) as [c [Hc Ec']].
    rewrite <- Ek, <- Ec'. apply in_map. exact Hc.
Qed.

Lemma dashboard_metrics_have_campaign_witness :
  let shown := apply_filters FilterSample.january_mobile_acme FilterSample.tables in
  exists r c,
    In r (calculate_basic_metrics (impressions shown) (clicks shown)
            (conversions shown) (campaigns shown)) /\
    In c Sample.campaigns /\ Metrics.campaign r = Some (campaign_info c).
Proof.
  cbv zeta.
  assert (Hr : exists r,
            In r (calculate_basic_metrics
                    (impressions (apply_filters FilterSample.january_mobile_acme
                                    FilterSample.tables))
                    (clicks (apply_filters FilterSample.january_mobile_acme
                               FilterSample.tables))
                    (conversions (apply_filters FilterSample.january_mobile_acme
                                    FilterSample.tables))
                    (campaigns (apply_filters FilterSample.january_mobile_acme
                                  FilterSample.tables))))
    by (vm_compute; eexists; left; reflexivity).
  destruct Hr as [r Hr].
  destruct (dashboard_metrics_have_campaign FilterSample.january_mobile_acme
              FilterSample.tables r Hr) as [c [Hc [_ Ei]]].
  exists r, c. split; [exact Hr |]. split; assumption.
Defined.

(** X20: deselecting every entry of the status box, or of the
    advertiser box, empties all four filtered tables, whatever the date
    range and the device selection; the pacing analysis then has no
    rows and the 'Campaigns On Pace' tile of the margin and pacing page
    fails with a KeyError. *)
Theorem empty_selection_breaks_pacing_tile (f : Filters) (t : Tables) :
  selected_status f = [] \/ selected_advertisers f = [] ->
  let shown := apply_filters f t in
  (campaigns shown = [] /\ impressions shown = [] /\ clicks shown = [] /\
   conversions shown = []) /\
  calculate_pacing_analysis (impressions shown) (campaigns shown) = [] /\
  pacing_health (calculate_pacing_analysis (impressions shown) (campaigns shown)) = None.
Proof.
  intros Hsel. cbv zeta.
  assert (Hnil : forall (A : Type) (l : list A), filter (fun _ => false) l = []).
  { intros A l. induction l as [| a l IH]; simpl; [reflexivity | exact IH]. }
  assert (Hc : filtered_campaigns f t = []).
  { unfold filtered_campaigns. cbv zeta. destruct Hsel as [Hs | Ha].
    - rewrite Hs. unfold filter_unless_all at 1. cbn [isin existsb]. apply Hnil.
    - rewrite Ha. unfold filter_unless_all at 2. cbn [isin existsb].
      rewrite Hnil. cbn [map isin existsb]. rewrite Hnil.
      unfold filter_unless_all. destruct (isin "All" (selected_status f)); reflexivity. }
  assert (Hids : campaign_ids f t = []) by (unfold campaign_ids; rewrite Hc; reflexivity).
  assert (Hi : filtered_impressions f t = [])
    by (unfold filtered_impressions; rewrite Hids; apply Hnil).
  assert (Hk : filtered_clicks f t = [])
    by (unfold filtered_clicks; rewrite Hids; apply Hnil).
  assert (Hv : filtered_conversions f t = [])
    by (unfold filtered_conversions; rewrite Hids; apply Hnil).
  unfold apply_filters. cbn [impressions clicks conversions campaigns advertisers].
  rewrite Hc, Hi, Hk, Hv.
  repeat split.
Qed.

Lemma empty_selection_breaks_pacing_tile_witness :
  pacing_health
    (calculate_pacing_analysis
       (impressions (apply_filters FilterSample.no_status FilterSample.tables))
       (campaigns (apply_filters FilterSample.no_status FilterSample.tables))) = None /\
  pacing_health
    (calculate_pacing_analysis (impressions FilterSample.tables)
       (campaigns FilterSample.tables)) <> None.
Proof.
  split.
  - apply (empty_selection_breaks_pacing_tile FilterSample.no_status FilterSample.tables).
    left. reflexivity.
  - vm_compute. discriminate.
Defined.

(** Clicks are filtered by campaign only: a click outside the selected
    date range still counts towards the campaign's clicks. *)
Example clicks_ignore_the_date_range :
  let f := mkFilters (mkDate 2024 1 5) (mkDate 2024 1 5) ["All"] ["All"] ["All"] in
  let t := EnvSample.tables in
  map (fun i => impression_date i) (filtered_impressions f t) = [mkDate 2024 1 5] /\
  map (fun c => ts_date (Click.timestamp c)) (filtered_clicks f t) = [mkDate 2024 1 2] /\
  map Metrics.ctr
      (calculate_basic_metrics (filtered_impressions f t) (filtered_clicks f t)
         (filtered_conversions f t) (filtered_campaigns f t)) = [100].
Proof. cbv zeta. repeat split; vm_compute; reflexivity. Qed.

(** ** A generated campaign of one day *)

(** X21: a campaign the generator gives the same start and end date
    gets the total budget 0, whatever daily budget and variance are
    drawn; the pacing analysis then reports it with budget_spent_pct 0,
    a length of one day and, as soon as it has a won impression, the
    status 'behind'. *)
Theorem one_day_campaign_is_behind (impressions_df : list Impression.t)
    (campaigns_df : list Campaign.t) (c : Campaign.t) (daily_budget variance : Q) :
  Campaign.end_date c = Campaign.start_date c ->
  Campaign.budget_total c
  = fst (campaign_budget (Campaign.start_date c) (Campaign.end_date c)
           daily_budget variance) ->
  In c campaigns_df ->
  campaign_won (Campaign.campaign_id c) impressions_df <> [] ->
  let r := pacing_row c (campaign_won (Campaign.campaign_id c) impressions_df) in
  Campaign.budget_total c = 0 /\
  In r (calculate_pacing_analysis impressions_df campaigns_df) /\
  Pacing.budget_spent_pct r = 0 /\ Pacing.total_days r = 1%Z /\
  Pacing.pacing_status r = "behind".
Proof.
  intros Hdates Hbudget Hc Hne. cbv zeta.
  assert (Hb0 : Campaign.budget_total c = 0).
  { rewrite Hbudget. unfold campaign_budget. cbv zeta. cbn [fst].
    rewrite Hdates. unfold days_between. rewrite Z.sub_diag.
    change (inject_Z 0) with 0. unfold round2.
    transitivity (round_dp 2 0); [apply round_dp_proper; ring | apply round_dp_0]. }
  set (g := campaign_won (Campaign.campaign_id c) impressions_df) in *.
  assert (Hdays : campaign_days c = 1%Z).
  { unfold campaign_days, days_between. rewrite Hdates. lia. }
  split; [exact Hb0 |].
  split; [apply pacing_row_iff; exists c; auto |].
  cbn [Pacing.budget_spent_pct Pacing.total_days Pacing.pacing_status pacing_row].
  assert (Ebs : budget_spent_pct (Qsum (map snd (daily_spend g))) (Campaign.budget_total c)
                = 0)
    by (apply budget_spent_pct_zero_budget; rewrite Hb0; apply Qle_refl).
  rewrite Ebs, Hdays.
  split; [apply round_dp_0 |]. split; [reflexivity |].
  apply (proj2 (proj1 (proj2 (pacing_status_cases _ _)))).
  destruct (daily_spend_days g Hne) as [Hd _].
  pose proof (Qof_nat_pos _ Hd) as HN.
  assert (Et : time_elapsed_pct (length (daily_spend g)) 1
               == Qof_nat (length (daily_spend g)) * 100).
  { unfold time_elapsed_pct. change (0 <? 1)%Z with true. cbv iota.
    change (inject_Z 1) with 1. field. }
  rewrite Et. lra.
Qed.

Module OneDaySample.
Definition campaign : Campaign.t :=
  Campaign.mk "CAMP_000031" "Flash Sale" "ADV_0001" (mkDate 2024 5 1) (mkDate 2024 5 1)
    (fst (campaign_budget (mkDate 2024 5 1) (mkDate 2024 5 1) 2500 1.1))
    (snd (campaign_budget (mkDate 2024 5 1) (mkDate 2024 5 1) 2500 1.1))
    "performance" "completed".

Definition impressions : list Impression.t :=
  [ Sample.impression "CAMP_000031" "PUB_0004" (mkDate 2024 5 1) 9.10 "won" ].
End OneDaySample.

Lemma one_day_campaign_is_behind_witness :
  let r := pacing_row OneDaySample.campaign
             (campaign_won "CAMP_000031" OneDaySample.impressions) in
  Campaign.budget_daily OneDaySample.campaign == 2500 /\
  Campaign.budget_total OneDaySample.campaign = 0 /\
  Pacing.pacing_status r = "behind".
Proof.
  cbv zeta. split; [vm_compute; reflexivity |].
  destruct (one_day_campaign_is_behind OneDaySample.impressions [OneDaySample.campaign]
              OneDaySample.campaign 2500 1.1) as [Hb [_ [_ [_ Hs]]]].
  - reflexivity.
  - reflexivity.
  - left. reflexivity.
  - vm_compute. discriminate.
  - split; [exact Hb | exact Hs].
Defined.

(** ** Number formatting *)

Lemma inject_Z_pred (n : Z) : inject_Z (n - 1) == inject_Z n - 1.
Proof. unfold Qeq. simpl. lia. Qed.

Lemma inject_Z_succ (n : Z) : inject_Z (n + 1) == inject_Z n + 1.
Proof. unfold Qeq. simpl. lia. Qed.

(** A number within half a unit of an even integer rounds to it, the
    lower tie included. *)
Lemma round_half_even_to_even (x : Q) (n : Z) :
  Z.even n = true ->
  inject_Z n - (1 # 2) <= x -> x < inject_Z n + (1 # 2) ->
  round_half_even x = n.
Proof.
  intros Hev Hlo Hhi.
  destruct (Qlt_le_dec (inject_Z n - (1 # 2)) x) as [Hgt | Hle].
  - pose proof (round_half_even_near x) as [H1 H2].
    assert (L : inject_Z (n - 1) < inject_Z (round_half_even x))
      by (rewrite inject_Z_pred; lra).
    assert (U : inject_Z (round_half_even x) < inject_Z (n + 1))
      by (rewrite inject_Z_succ; lra).
    rewrite <- Zlt_Qlt in L, U. lia.
  - assert (E : x == inject_Z n - (1 # 2)) by lra.
    assert (Hfl : Qfloor x = (n - 1)%Z).
    { pose proof (Qfloor_le x) as F1. pose proof (Qlt_floor x) as F2.
      assert (L : inject_Z (Qfloor x) < inject_Z n) by lra.
      assert (U : inject_Z (n - 1) < inject_Z (Qfloor x + 1))
        by (rewrite inject_Z_pred; lra).
      rewrite <- Zlt_Qlt in L, U. lia. }
    unfold round_half_even. cbv zeta. rewrite Hfl.
    assert (Ec : Qcompare (x - inject_Z (n - 1)) (1 # 2) = Eq).
    { apply (proj1 (Qeq_alt _ _)). rewrite inject_Z_pred. lra. }
    rewrite Ec.
    assert (Hodd : Z.even (n - 1) = false).
    { rewrite Z.even_sub, Hev. reflexivity. }
    rewrite Hodd. lia.
Qed.

(** X22: the display rolls over one step late.  A value from 999.5 up
    to, but not including, 1000 is shown as '1,000', without the K that
    1000 itself gets; a value from 999,950 up to, but not including,
    one million is shown as '1000.0K', not as '1.0M'. *)
Theorem format_number_rollover (value : Q) :
  (999.5 <= value -> value < 1000 -> format_number value = "1,000") /\
  (999950 <= value -> value < 1000000 -> format_number value = "1000.0K").
Proof.
  split; intros Hlo Hhi; unfold format_number.
  - assert (B1 : Qle_bool 1000000 value = false).
    { destruct (Qle_bool 1000000 value) eqn:B; [| reflexivity].
      apply (proj1 (Qle_bool_iff _ _)) in B. lra. }
    assert (B2 : Qle_bool 1000 value = false).
    { destruct (Qle_bool 1000 value) eqn:B; [| reflexivity].
      apply (proj1 (Qle_bool_iff _ _)) in B. lra. }
    rewrite B1, B2. unfold format_fixed. cbv zeta.
    assert (Hs : round_half_even (Qabs value * inject_Z (pow10 0)) = 1000%Z).
    { apply round_half_even_to_even; [reflexivity | |];
        rewrite (Qabs_pos value) by lra; change (inject_Z (pow10 0)) with 1;
        change (inject_Z 1000) with 1000; lra. }
    rewrite Hs.
    assert (Hn : Qltb value 0 = false) by (apply Qltb_false; lra).
    rewrite Hn. vm_compute. reflexivity.
  - assert (B1 : Qle_bool 1000000 value = false).
    { destruct (Qle_bool 1000000 value) eqn:B; [| reflexivity].
      apply (proj1 (Qle_bool_iff _ _)) in B. lra. }
    assert (B2 : Qle_bool 1000 value = true) by (apply Qle_bool_iff; lra).
    rewrite B1, B2. unfold format_fixed. cbv zeta.
    assert (Hq : 999.95 <= value / 1000 /\ value / 1000 < 1000).
    { split; [apply Qle_shift_div_l | apply Qlt_shift_div_r]; lra. }
    destruct Hq as [Hq1 Hq2].
    assert (Hs : round_half_even (Qabs (value / 1000) * inject_Z (pow10 1)) = 10000%Z).
    { apply round_half_even_to_even; [reflexivity | |];
        rewrite (Qabs_pos (value / 1000)) by lra; change (inject_Z (pow10 1)) with 10;
        change (inject_Z 10000) with 10000; lra. }
    rewrite Hs.
    assert (Hn : Qltb (value / 1000) 0 = false) by (apply Qltb_false; lra).
    rewrite Hn. vm_compute. reflexivity.
Qed.

Lemma format_number_rollover_witness :
  format_number 999.7 = "1,000" /\ format_number 999960 = "1000.0K".
Proof.
  split.
  - apply (proj1 (format_number_rollover 999.7)); lra.
  - apply (proj2 (format_number_rollover 999960)); lra.
Defined.

Example format_samples :
  format_number 1000 = "1.0K" /\ format_number 1000000 = "1.0M" /\
  format_number 999.4 = "999" /\ format_number (-5000) = "-5,000" /\
  format_currency 1234567.891 = "$1,234,567.89" /\
  format_currency (-1234.5) = "$-1,234.50" /\
  format_percentage 33.333 = "33.33%".
Proof. repeat split; vm_compute; reflexivity. Qed.

(** ** The pacing tile *)


Example pacing_health_sample :
  match pacing_health (calculate_pacing_analysis (PacingSample.impressions 20)
                         [PacingSample.campaign 100; PacingSample.campaign 1]) with
  | Some (on_pace, total, pct) => on_pace = 1%nat /\ total = 2%nat /\ pct == 50
  | None => False
  end.
Proof. vm_compute. repeat split. Qed.
